(** * Double Big Harvard processor simulator: the pipeline engine

    A shallow embedding of [processor.h], [pipeline.c] and the data-store
    accessors of [memory.c].  The C code mutates one [Processor] struct
    through a pointer; here every function takes the struct and returns the
    updated one.  Fixed-width integers are [Z] with the conversions of C
    written out ([to_uint8], [to_uint16], [to_int8], [to_int16]); the arrays
    are lists read with [!!] and written with [<[ _ := _ ]>]. *)

From stdpp Require Import base list numbers list_numbers.

Open Scope Z_scope.

(** ** Integer conversions of C *)

Definition to_uint8 (x : Z) : Z := x mod 256.
Definition to_uint16 (x : Z) : Z := x mod 65536.
Definition to_int8 (x : Z) : Z :=
  let y := x mod 256 in if y <? 128 then y else y - 256.
Definition to_int16 (x : Z) : Z :=
  let y := x mod 65536 in if y <? 32768 then y else y - 65536.

(** ** processor.h *)

Definition FLAG_C : Z := 0x08.
Definition FLAG_V : Z := 0x04.
Definition FLAG_N : Z := 0x02.
Definition FLAG_S : Z := 0x01.
Definition FLAG_Z : Z := 0x10.

Record IF_ID_Reg := mkIF_ID {
  IF_ID_instr : Z;
  IF_ID_pc : Z;
  IF_ID_valid : bool
}.

Record ID_EX_Reg := mkID_EX {
  ID_EX_instr : Z;
  ID_EX_pc : Z;
  ID_EX_opcode : Z;
  ID_EX_rs : Z;
  ID_EX_rt : Z;
  ID_EX_imm : Z;
  ID_EX_valueRS : Z;
  ID_EX_valueRT : Z;
  ID_EX_valid : bool
}.

Record Processor := mkProcessor {
  Register : list Z;
  SREG : Z;
  PC : Z;
  instr_mem : list Z;
  data_mem : list Z;
  IF_ID : IF_ID_Reg;
  ID_EX : ID_EX_Reg;
  EX_instr : Z;
  EX_pc : Z;
  EX_valid : bool
}.

(** Field assignments [p->f = v]. *)

Definition set_Register (v : list Z) (p : Processor) : Processor :=
  mkProcessor v (SREG p) (PC p) (instr_mem p) (data_mem p) (IF_ID p) (ID_EX p)
    (EX_instr p) (EX_pc p) (EX_valid p).
Definition set_SREG (v : Z) (p : Processor) : Processor :=
  mkProcessor (Register p) v (PC p) (instr_mem p) (data_mem p) (IF_ID p) (ID_EX p)
    (EX_instr p) (EX_pc p) (EX_valid p).
Definition set_PC (v : Z) (p : Processor) : Processor :=
  mkProcessor (Register p) (SREG p) v (instr_mem p) (data_mem p) (IF_ID p) (ID_EX p)
    (EX_instr p) (EX_pc p) (EX_valid p).
Definition set_instr_mem (v : list Z) (p : Processor) : Processor :=
  mkProcessor (Register p) (SREG p) (PC p) v (data_mem p) (IF_ID p) (ID_EX p)
    (EX_instr p) (EX_pc p) (EX_valid p).
Definition set_data_mem (v : list Z) (p : Processor) : Processor :=
  mkProcessor (Register p) (SREG p) (PC p) (instr_mem p) v (IF_ID p) (ID_EX p)
    (EX_instr p) (EX_pc p) (EX_valid p).
Definition set_IF_ID (v : IF_ID_Reg) (p : Processor) : Processor :=
  mkProcessor (Register p) (SREG p) (PC p) (instr_mem p) (data_mem p) v (ID_EX p)
    (EX_instr p) (EX_pc p) (EX_valid p).
Definition set_ID_EX (v : ID_EX_Reg) (p : Processor) : Processor :=
  mkProcessor (Register p) (SREG p) (PC p) (instr_mem p) (data_mem p) (IF_ID p) v
    (EX_instr p) (EX_pc p) (EX_valid p).
Definition set_EX (i pc : Z) (v : bool) (p : Processor) : Processor :=
  mkProcessor (Register p) (SREG p) (PC p) (instr_mem p) (data_mem p) (IF_ID p)
    (ID_EX p) i pc v.

(** [p->IF_ID.valid = b] and [p->ID_EX.valid = b]. *)
Definition set_IF_ID_valid (b : bool) (p : Processor) : Processor :=
  set_IF_ID (mkIF_ID (IF_ID_instr (IF_ID p)) (IF_ID_pc (IF_ID p)) b) p.
Definition set_ID_EX_valid (b : bool) (p : Processor) : Processor :=
  let E := ID_EX p in
  set_ID_EX (mkID_EX (ID_EX_instr E) (ID_EX_pc E) (ID_EX_opcode E) (ID_EX_rs E)
               (ID_EX_rt E) (ID_EX_imm E) (ID_EX_valueRS E) (ID_EX_valueRT E) b) p.

(** Array reads [a[i]] and writes [a[i] = v].  The indices of the source
    are unsigned, and every index the simulator uses on a state it can
    reach is inside the array (see [wf] and [latch_ok_ranges] below);
    beyond the end, where C leaves the access undefined, the model reads 0
    and a write changes nothing. *)
Definition rd (a : list Z) (i : Z) : Z := default 0 (a !! Z.to_nat i).
Definition wr (a : list Z) (i v : Z) : list Z := <[Z.to_nat i := v]> a.

(** ** memory.c: the data store *)

Definition mem_read_data (p : Processor) (addr : Z) : Z :=
  if 2048 <=? addr then 0 else rd (data_mem p) addr.

Definition mem_write_data (p : Processor) (addr data : Z) : Processor :=
  if 2048 <=? addr then p else set_data_mem (wr (data_mem p) addr data) p.

(** ** pipeline.c *)

Definition update_flags (p : Processor) (result val1 val2 op : Z) : Processor :=
  let sreg := 0 in
  let sreg := if result =? 0 then Z.lor sreg FLAG_Z else sreg in
  let sreg := if Z.land result 0x80 =? 0 then sreg else Z.lor sreg FLAG_N in
  let sreg :=
    if (op =? 0) || (op =? 1) then
      let temp :=
        if op =? 0 then to_uint16 (val1 + val2)
        else to_uint16 (to_int8 val1 - to_int8 val2) in
      let sreg := if Z.land temp 0x100 =? 0 then sreg else Z.lor sreg FLAG_C in
      let ovf :=
        to_uint8 (Z.shiftr (Z.land (Z.lxor val1 result) (Z.lxor val2 result)) 7) in
      let sreg := if ovf =? 0 then sreg else Z.lor sreg FLAG_V in
      if Z.lxor (Z.shiftr (Z.land sreg FLAG_N) 1) (Z.land sreg FLAG_V) =? 0
      then sreg else Z.lor sreg FLAG_S
    else sreg in
  set_SREG sreg p.

Definition fetch (p : Processor) : Processor :=
  if PC p <? 1024 then
    let instruction := rd (instr_mem p) (PC p) in
    if instruction =? 0 then set_PC 1024 p
    else
      let p := set_IF_ID (mkIF_ID instruction (PC p) true) p in
      set_PC (to_uint16 (PC p + 1)) p
  else p.

Definition imm_class (opcode : Z) : bool :=
  (opcode =? 3) || (opcode =? 4) || (opcode =? 5) || (opcode =? 10)
  || (opcode =? 11) || (opcode =? 8) || (opcode =? 9).

Definition decode (p : Processor) : Processor :=
  if negb (IF_ID_valid (IF_ID p)) then p
  else
    let instruction := IF_ID_instr (IF_ID p) in
    let E_pc := IF_ID_pc (IF_ID p) in
    let E_opcode := to_uint8 (Z.land (Z.shiftr instruction 12) 0x0F) in
    let E_rs := to_uint8 (Z.land (Z.shiftr instruction 6) 0x3F) in
    let low := to_int16 (to_int8 (Z.land instruction 0x3F)) in
    let E_imm := if imm_class E_opcode then low else 0 in
    let E_rt := if imm_class E_opcode then 0 else to_uint8 low in
    let E_valueRS := rd (Register p) E_rs in
    let E_valueRT := rd (Register p) E_rt in
    let p := set_ID_EX (mkID_EX instruction E_pc E_opcode E_rs E_rt E_imm
                          E_valueRS E_valueRT true) p in
    set_IF_ID_valid false p.

(** What the [switch] of [execute] leaves behind: either the function has
    returned from inside a case, or control reaches the code after the
    switch with [result] and [flag] set.

    The two shifts are the mathematical ones, cut to eight bits: C leaves
    [val1 << val2] undefined once [val2] reaches the width of [int], and
    the right shift of a negative [int8_t] is the arithmetic one on the
    usual compilers.  No property below depends on the value of a shift. *)
Inductive switch_exit :=
| Returned (p : Processor)
| Broke (p : Processor) (result : Z) (flag : bool).

Definition execute_switch (p : Processor) : switch_exit :=
  let opcode := ID_EX_opcode (ID_EX p) in
  let rs := ID_EX_rs (ID_EX p) in
  let rt := ID_EX_rt (ID_EX p) in
  let immediate := to_int8 (ID_EX_imm (ID_EX p)) in
  let val1 := ID_EX_valueRS (ID_EX p) in
  let val2 :=
    if (opcode <=? 2) || (opcode =? 6) || (opcode =? 7)
    then ID_EX_valueRT (ID_EX p) else to_uint8 immediate in
  match opcode with
  | 0 => Broke p (to_uint8 (val1 + val2)) false
  | 1 => Broke p (to_uint8 (val1 - val2)) false
  | 2 => Broke p (to_uint8 (val1 * val2)) false
  | 3 => Broke p (to_uint8 immediate) false
  | 5 => Broke p (to_uint8 (Z.land val1 val2)) false
  | 6 => Broke p (to_uint8 (Z.lxor val1 val2)) false
  | 8 => Broke p (to_uint8 (Z.shiftl val1 val2)) false
  | 9 => Broke p (to_uint8 (Z.shiftr (to_int8 val1) val2)) false
  | 10 => Broke p (mem_read_data p (to_uint16 immediate)) false
  | 11 =>
      Broke (mem_write_data p (to_uint16 immediate) (rd (Register p) rs)) 0 true
  | 4 =>
      if rd (Register p) rs =? 0 then
        let p := set_PC (to_uint16 (ID_EX_pc (ID_EX p) + 1 + immediate)) p in
        let p := set_IF_ID_valid false p in
        Returned (set_ID_EX_valid false p)
      else Broke p 0 true
  | 7 =>
      let p :=
        set_PC (to_uint16 (Z.lor (Z.shiftl (to_uint16 (rd (Register p) rs)) 8)
                                 (rd (Register p) rt))) p in
      let p := set_IF_ID_valid false p in
      Returned (set_ID_EX_valid false p)
  | _ => Broke p 0 true
  end.

Definition execute (p : Processor) : Processor :=
  if negb (ID_EX_valid (ID_EX p)) then p
  else
    let opcode := ID_EX_opcode (ID_EX p) in
    let rs := ID_EX_rs (ID_EX p) in
    let immediate := to_int8 (ID_EX_imm (ID_EX p)) in
    let val1 := ID_EX_valueRS (ID_EX p) in
    let val2 :=
      if (opcode <=? 2) || (opcode =? 6) || (opcode =? 7)
      then ID_EX_valueRT (ID_EX p) else to_uint8 immediate in
    match execute_switch p with
    | Returned p => p
    | Broke p result flag =>
        let p :=
          if negb flag then
            let p :=
              if negb (rs =? 0) then set_Register (wr (Register p) rs result) p
              else p in
            update_flags p result val1 val2 opcode
          else p in
        set_ID_EX_valid false p
    end.

Definition process_cycle (p : Processor) : Processor :=
  let p := set_EX (ID_EX_instr (ID_EX p)) (ID_EX_pc (ID_EX p))
             (ID_EX_valid (ID_EX p)) p in
  let p := execute p in
  let p := decode p in
  if PC p <? 1024 then fetch p else p.

(** ** Start-up: processor.c, memory.c and the loop of main.c *)

(** [processor.c] is not among the source files; README.md (Example 1)
    lists the body of [proc_init]: the whole struct is zeroed.  [mem_init]
    then zeroes both stores again. *)
Definition proc_init : Processor :=
  mkProcessor (replicate 64 0) 0 0 (replicate 1024 0) (replicate 2048 0)
    (mkIF_ID 0 0 false) (mkID_EX 0 0 0 0 0 0 0 0 false) 0 0 false.

Definition mem_init (p : Processor) : Processor :=
  set_data_mem (replicate 2048 0) (set_instr_mem (replicate 1024 0) p).

(** The word [mem_load_program] builds from a parsed line: the mnemonic's
    code, the first register and either the second register or the value,
    the last two cut to [uint8_t] first. *)
Definition encode (opcode r1 operand : Z) : Z :=
  to_uint16 (Z.lor (Z.lor (Z.shiftl opcode 12)
                          (Z.shiftl (Z.land (to_uint8 r1) 0x3F) 6))
                   (Z.land (to_uint8 operand) 0x3F)).

(** The loop of [mem_load_program] once a line has been parsed: each line
    is stored at the next address while that address is below 0x0400.
    Reading and parsing the text is left out; a program is the list of
    (code, first register, second register or value) the parser yields. *)
Fixpoint store_program (prog : list (Z * Z * Z)) (addr : Z) (p : Processor)
  : Processor :=
  match prog with
  | [] => p
  | (opcode, r1, operand) :: rest =>
      if addr <? 1024 then
        store_program rest (to_uint16 (addr + 1))
          (set_instr_mem (wr (instr_mem p) addr (encode opcode r1 operand)) p)
      else p
  end.

Definition mem_load_program (prog : list (Z * Z * Z)) (p : Processor) : Processor :=
  store_program prog 0 p.

(** The state [main] hands to its first [process_cycle]. *)
Definition boot (prog : list (Z * Z * Z)) : Processor :=
  mem_load_program prog (mem_init proc_init).

(** [n] calls of [process_cycle], as the loop of [main] makes them. *)
Definition run (n : nat) (p : Processor) : Processor := Nat.iter n process_cycle p.

(** The termination test of [main]. *)
Definition drained (p : Processor) : bool :=
  negb (EX_valid p) && negb (IF_ID_valid (IF_ID p))
  && negb (ID_EX_valid (ID_EX p)) && (1024 <=? PC p).

(** ** Reading the status register *)

Definition flag (f : Z) (p : Processor) : bool := negb (Z.land (SREG p) f =? 0).

(** ** Well-formed states *)

Definition byte (x : Z) : Prop := 0 <= x < 256.
Definition word16 (x : Z) : Prop := 0 <= x < 65536.

(** What [decode] guarantees about a latch it has filled, as long as the
    register file has not been written since: every field is the one cut
    out of the latched instruction word, and the two operand values are
    those of the register file. *)
Definition latch_ok (p : Processor) : Prop :=
  let E := ID_EX p in
  let low := Z.land (ID_EX_instr E) 0x3F in
  ID_EX_opcode E = Z.land (Z.shiftr (ID_EX_instr E) 12) 0x0F
  /\ ID_EX_rs E = Z.land (Z.shiftr (ID_EX_instr E) 6) 0x3F
  /\ ID_EX_rt E = (if imm_class (ID_EX_opcode E) then 0 else low)
  /\ ID_EX_imm E = (if imm_class (ID_EX_opcode E) then low else 0)
  /\ ID_EX_valueRS E = rd (Register p) (ID_EX_rs E)
  /\ ID_EX_valueRT E = rd (Register p) (ID_EX_rt E).

(** The architectural state has the sizes and ranges of its C types. *)
Definition wf_arch (p : Processor) : Prop :=
  length (Register p) = 64%nat /\ Forall byte (Register p)
  /\ length (data_mem p) = 2048%nat /\ Forall byte (data_mem p)
  /\ length (instr_mem p) = 1024%nat /\ Forall word16 (instr_mem p)
  /\ word16 (PC p) /\ byte (SREG p).

Definition wf (p : Processor) : Prop :=
  wf_arch p /\ (ID_EX_valid (ID_EX p) = true -> latch_ok p).

(** Well-formedness can be decided by evaluation. *)
Global Instance byte_dec x : Decision (byte x).
Proof. unfold byte. apply _. Defined.
Global Instance word16_dec x : Decision (word16 x).
Proof. unfold word16. apply _. Defined.
Global Instance latch_ok_dec p : Decision (latch_ok p).
Proof. unfold latch_ok. cbv zeta. apply _. Defined.
Global Instance wf_arch_dec p : Decision (wf_arch p).
Proof. unfold wf_arch. apply _. Defined.
Global Instance wf_dec p : Decision (wf p).
Proof. unfold wf. apply _. Defined.

(** ** Notions used to state the properties *)

(** The four tests [update_flags] makes on its arguments. *)
Definition result_zero (result : Z) : bool := result =? 0.
Definition result_negative (result : Z) : bool := negb (Z.land result 0x80 =? 0).
Definition carry_out (val1 val2 op : Z) : bool :=
  negb (Z.land (if op =? 0 then to_uint16 (val1 + val2)
                else to_uint16 (to_int8 val1 - to_int8 val2)) 0x100 =? 0).
Definition overflow_bit (result val1 val2 : Z) : bool :=
  negb (to_uint8 (Z.shiftr (Z.land (Z.lxor val1 result) (Z.lxor val2 result)) 7) =? 0).
Definition add_or_sub (op : Z) : bool := (op =? 0) || (op =? 1).

Definition bit_if (b : bool) (f : Z) : Z := if b then f else 0.

(** The second operand and the value [execute] computes into [result]. *)
Definition operand2 (p : Processor) : Z :=
  let opcode := ID_EX_opcode (ID_EX p) in
  if (opcode <=? 2) || (opcode =? 6) || (opcode =? 7)
  then ID_EX_valueRT (ID_EX p) else to_uint8 (to_int8 (ID_EX_imm (ID_EX p))).

Definition switch_result (p : Processor) : Z :=
  match execute_switch p with
  | Returned _ => 0
  | Broke _ result _ => result
  end.

(** The opcodes whose case leaves [flag] false: they write back and update
    the flags. *)
Definition writes_back (opcode : Z) : bool :=
  (opcode =? 0) || (opcode =? 1) || (opcode =? 2) || (opcode =? 3)
  || (opcode =? 5) || (opcode =? 6) || (opcode =? 8) || (opcode =? 9)
  || (opcode =? 10).

(** The opcodes that have a case of their own in the switch. *)
Definition has_case (opcode : Z) : bool :=
  writes_back opcode || (opcode =? 4) || (opcode =? 7) || (opcode =? 11).

(** The snapshot [process_cycle] takes before it runs the stages. *)
Definition snapshot (p : Processor) : Processor :=
  set_EX (ID_EX_instr (ID_EX p)) (ID_EX_pc (ID_EX p)) (ID_EX_valid (ID_EX p)) p.

(** Execute is about to take a branch: a valid BR, or a valid BEQZ whose
    register reads 0. *)
Definition branch_taken (p : Processor) : bool :=
  ID_EX_valid (ID_EX p)
  && ((ID_EX_opcode (ID_EX p) =? 7)
      || ((ID_EX_opcode (ID_EX p) =? 4)
          && (rd (Register p) (ID_EX_rs (ID_EX p)) =? 0))).

(** The operand values of the decode-execute latch replaced by [vs], [vt]. *)
Definition set_snapshot (vs vt : Z) (p : Processor) : Processor :=
  let E := ID_EX p in
  set_ID_EX (mkID_EX (ID_EX_instr E) (ID_EX_pc E) (ID_EX_opcode E) (ID_EX_rs E)
               (ID_EX_rt E) (ID_EX_imm E) vs vt (ID_EX_valid E)) p.

(** ** The specification's wording, for comparison with the code *)

(** The Sign flag as the specification words it: N xor V after an ADD or a
    SUB, and equal to N after any other opcode that updates the flags. *)
Definition sign_as_specified (opcode : Z) (q : Processor) : Prop :=
  if add_or_sub opcode
  then flag FLAG_S q = xorb (flag FLAG_N q) (flag FLAG_V q)
  else flag FLAG_S q = flag FLAG_N q.

(** The status register [update_flags] would compute for the latched
    instruction, and the behaviour C2 describes: no register written and
    the status register recomputed. *)
Definition recomputed_SREG (p : Processor) : Z :=
  SREG (update_flags p (switch_result p) (ID_EX_valueRS (ID_EX p)) (operand2 p)
          (ID_EX_opcode (ID_EX p))).
Definition flag_updating_no_op (p : Processor) : Prop :=
  Register (execute p) = Register p /\ SREG (execute p) = recomputed_SREG p.

(** The six-bit immediate read as the specification reads it: a signed
    number from -32 to 31, bit 5 being the sign. *)
Definition spec_sign_extend6 (instruction : Z) : Z :=
  let low := Z.land instruction 0x3F in
  if low <? 32 then low else low - 64.

(** ** Sample runs *)

(** Each state below is reached by running a short program from start-up;
    a program is written as the list of (code, first register, second
    register or value) of its lines. *)

(** A program whose only instruction is [MOVI R0 5], two cycles in: the
    instruction sits in the decode-execute latch, about to write register 0. *)
Definition movi_r0_staged : Processor := run 2 (boot [(3, 0, 5)]).

(** [MOVI R1 1; MOVI R2 2; BR R1 R2], four cycles in: both moves have
    written their register and the branch sits in the decode-execute latch. *)
Definition br_staged : Processor := run 4 (boot [(3, 1, 1); (3, 2, 2); (7, 1, 2)]).

(** The same branch with register 1 written after it was decoded. *)
Definition br_staged_stale : Processor :=
  set_Register (wr (Register br_staged) 1 9) br_staged.

(** The empty program at start-up (the first word is the sentinel), the same
    one cycle later (the program counter is at the bound), and a program of
    one instruction, [MOVI R1 5], at start-up. *)
Definition at_sentinel : Processor := boot [].
Definition at_bound : Processor := run 1 (boot []).
Definition at_instruction : Processor := boot [(3, 1, 5)].

(** [MOVI R1 7; STR R1 10; LDR R2 10], three cycles in: register 1 holds 7,
    the store is in the decode-execute latch and the load in the
    fetch-decode latch. *)
Definition str_staged : Processor :=
  run 3 (boot [(3, 1, 7); (11, 1, 10); (10, 2, 10)]).

(** The latch [decode] fills for that load later in the same cycle. *)
Definition ldr_latch : ID_EX_Reg := ID_EX (decode (execute str_staged)).

(** A store and a load whose latched immediate is -1, which [execute] turns
    into the address 65535. *)
Definition str_far : Processor :=
  set_ID_EX (mkID_EX 0 0 11 1 0 (-1) 7 0 true) str_staged.
Definition ldr_far : ID_EX_Reg := mkID_EX 0 0 10 2 0 (-1) 0 0 true.

(** Programs that bring an ADD or a SUB of two registers into the
    decode-execute latch: [MOVI R1 5; MOVI R2 3; ADD R1 R2], then 200 + 100
    with the operands built by shifts (25 << 3 and 25 << 2), then
    [MOVI R1 3; MOVI R2 5; SUB R1 R2]. *)
Definition add_5_3 : Processor := run 4 (boot [(3, 1, 5); (3, 2, 3); (0, 1, 2)]).
Definition add_200_100 : Processor :=
  run 6 (boot [(3, 1, 25); (8, 1, 3); (3, 2, 25); (8, 2, 2); (0, 1, 2)]).
Definition sub_3_5 : Processor := run 4 (boot [(3, 1, 3); (3, 2, 5); (1, 1, 2)]).

(** 64 + 64 (both operands built as 1 << 6), 200 + 3 and 16 * 8 in the
    decode-execute latch. *)
Definition add_64_64 : Processor :=
  run 6 (boot [(3, 1, 1); (8, 1, 6); (3, 2, 1); (8, 2, 6); (0, 1, 2)]).
Definition add_200_3 : Processor :=
  run 5 (boot [(3, 1, 25); (8, 1, 3); (3, 2, 3); (0, 1, 2)]).
Definition mul_16_8 : Processor := run 4 (boot [(3, 1, 16); (3, 2, 8); (2, 1, 2)]).

(** An untaken BEQZ and an undefined opcode (12) in the decode-execute
    latch, each after [MOVI R1 60; SAL R1 2] has left 240 in register 1 and
    N in the status register. *)
Definition beqz_untaken : Processor :=
  run 4 (boot [(3, 1, 60); (8, 1, 2); (4, 1, 3)]).
Definition undefined_opcode : Processor :=
  run 4 (boot [(3, 1, 60); (8, 1, 2); (12, 1, 3)]).

(** [MOVI R1 1; MOVI R2 2; BR R1 R2; MOVI R3 9], four cycles in: the branch
    is in the decode-execute latch and the move after it has been fetched
    into the fetch-decode latch. *)
Definition br_with_successor : Processor :=
  run 4 (boot [(3, 1, 1); (3, 2, 2); (7, 1, 2); (3, 3, 9)]).

(** Five moves and then [BEQZ R1 -2] at address 5, seven cycles in:
    register 1 is still 0 and the branch is in the decode-execute latch. *)
Definition beqz_backward : Processor :=
  run 7 (boot [(3, 2, 1); (3, 2, 1); (3, 2, 1); (3, 2, 1); (3, 2, 1); (4, 1, -2)]).

(** [MOVI R1 5; ADD R2 R1], two cycles in: the move is in the
    decode-execute latch, the addition in the fetch-decode latch, and
    register 1 still holds 0. *)
Definition movi_then_add : Processor := run 2 (boot [(3, 1, 5); (0, 2, 1)]).

(** [MOVI R1 1; SAL R1 7; MOVI R2 1; SUB R1 R2], five cycles in: the
    subtraction 128 - 1, that is -128 - 1 on signed bytes, is in the
    decode-execute latch. *)
Definition sub_128_1 : Processor :=
  run 5 (boot [(3, 1, 1); (8, 1, 7); (3, 2, 1); (1, 1, 2)]).

(** [MOVI R1 7; STR R1 -1]: the store goes to address 63. *)
Definition store_minus_one : list (Z * Z * Z) := [(3, 1, 7); (11, 1, -1)].

(** The same program at start-up, as the list of its lines. *)
Definition movi_add_program : list (Z * Z * Z) := [(3, 1, 5); (0, 2, 1)].

(** ** main.c: the simulation loop *)

(** The value [main] gives [isrunning] at the end of an iteration. *)
Definition isrunning (p : Processor) : bool :=
  IF_ID_valid (IF_ID p) || ID_EX_valid (ID_EX p) || EX_valid p || (PC p <? 1024).

(** The [while] loop of [main], with [fuel] bounding the iterations:
    [Some] is the state and the cycle counter the loop ends with, [None]
    says the fuel was used up first.  [cyclescounter] is an [int] in the
    source and unbounded here; printing is left out. *)
Fixpoint main_loop (fuel : nat) (cyclescounter : Z) (p : Processor)
  : option (Processor * Z) :=
  match fuel with
  | O => None
  | S fuel =>
      let p := process_cycle p in
      if drained p then Some (p, cyclescounter)
      else
        let cyclescounter := cyclescounter + 1 in
        if isrunning p then main_loop fuel cyclescounter p
        else Some (p, cyclescounter)
  end.

(** ** Further notions *)

(** The opcode field as [decode] cuts it out of an instruction word. *)
Definition opcode_field (instruction : Z) : Z :=
  Z.land (Z.shiftr instruction 12) 0x0F.

(** The word is neither a BEQZ nor a BR. *)
Definition not_a_branch (instruction : Z) : bool :=
  negb (opcode_field instruction =? 4) && negb (opcode_field instruction =? 7).

(** A program whose lines carry a code from 0 to 15 other than that of
    BEQZ and BR. *)
Definition branch_free (prog : list (Z * Z * Z)) : bool :=
  forallb (fun line => let '(opcode, _, _) := line in
                       (0 <=? opcode) && (opcode <? 16)
                       && negb (opcode =? 4) && negb (opcode =? 7)) prog.

(** No branch is in flight: none in the instruction store and none in
    either latch. *)
Definition no_branch_in_flight (p : Processor) : Prop :=
  Forall (fun w => not_a_branch w = true) (instr_mem p)
  /\ (IF_ID_valid (IF_ID p) = true -> not_a_branch (IF_ID_instr (IF_ID p)) = true)
  /\ (ID_EX_valid (ID_EX p) = true ->
      ID_EX_opcode (ID_EX p) <> 4 /\ ID_EX_opcode (ID_EX p) <> 7)
  /\ 0 <= PC p.

(** The word [instr] is the non-zero word the store [m] holds at the
    address [pc], an address below 1024. *)
Definition fetched_from (m : list Z) (instr pc : Z) : Prop :=
  0 <= pc < 1024 /\ instr = rd m pc /\ instr <> 0.

(** Each instruction in the pipeline is the word stored at the program
    counter it carries. *)
Definition in_flight_ok (p : Processor) : Prop :=
  (IF_ID_valid (IF_ID p) = true ->
   fetched_from (instr_mem p) (IF_ID_instr (IF_ID p)) (IF_ID_pc (IF_ID p)))
  /\ (ID_EX_valid (ID_EX p) = true ->
      fetched_from (instr_mem p) (ID_EX_instr (ID_EX p)) (ID_EX_pc (ID_EX p)))
  /\ (EX_valid p = true -> fetched_from (instr_mem p) (EX_instr p) (EX_pc p)).

(** The address an LDR or STR in the latch uses. *)
Definition latched_address (p : Processor) : Z :=
  to_uint16 (to_int8 (ID_EX_imm (ID_EX p))).

(** The 256 values of a [uint8_t]. *)
Definition bytes : list Z := seqZ 0 256.

(** The sum of two bytes read as signed numbers does not fit a signed byte. *)
Definition signed_sum_overflows (val1 val2 : Z) : bool :=
  let s := to_int8 val1 + to_int8 val2 in negb ((-128 <=? s) && (s <=? 127)).

(** ** Tactics *)

Ltac bool_to_Z :=
  repeat match goal with
    | H : _ || _ = true |- _ => apply orb_true_iff in H; destruct H as [H | H]
    | H : _ || _ = false |- _ => apply orb_false_iff in H; destruct H
    | H : (_ =? _) = true |- _ => apply Z.eqb_eq in H
    | H : (_ =? _) = false |- _ => apply Z.eqb_neq in H
    end.

Ltac ground_byte := vm_compute; split; [discriminate | reflexivity].

Ltac by_evaluation := vm_compute; first [reflexivity | discriminate].

(** * Proofs *)

(** ** Conversions *)

Lemma to_uint8_byte x : byte (to_uint8 x).
Proof. unfold byte, to_uint8. apply Z.mod_pos_bound. lia. Qed.

Lemma to_uint16_word16 x : word16 (to_uint16 x).
Proof. unfold word16, to_uint16. apply Z.mod_pos_bound. lia. Qed.

Lemma to_uint8_id x : byte x -> to_uint8 x = x.
Proof. unfold byte, to_uint8. intros. apply Z.mod_small. lia. Qed.

Lemma to_uint16_id x : word16 x -> to_uint16 x = x.
Proof. unfold word16, to_uint16. intros. apply Z.mod_small. lia. Qed.

Lemma to_int8_small x : 0 <= x < 128 -> to_int8 x = x.
Proof.
  intros Hx. unfold to_int8. rewrite Z.mod_small by lia.
  destruct (Z.ltb_spec x 128); lia.
Qed.

Lemma to_int16_small x : 0 <= x < 32768 -> to_int16 x = x.
Proof.
  intros Hx. unfold to_int16. rewrite Z.mod_small by lia.
  destruct (Z.ltb_spec x 32768); lia.
Qed.

Lemma land_0x0F x : 0 <= Z.land x 0x0F < 16.
Proof.
  change 0x0F with (Z.ones 4). rewrite Z.land_ones by lia.
  apply Z.mod_pos_bound. lia.
Qed.

Lemma land_0x3F x : 0 <= Z.land x 0x3F < 64.
Proof.
  change 0x3F with (Z.ones 6). rewrite Z.land_ones by lia.
  apply Z.mod_pos_bound. lia.
Qed.

(** The cast chain of [decode] on the low six bits never yields a negative
    number: a six-bit value is at most 63 and [int8_t] holds it unchanged. *)
Lemma decode_low_bits x :
  to_int16 (to_int8 (Z.land x 0x3F)) = Z.land x 0x3F.
Proof.
  pose proof (land_0x3F x).
  rewrite to_int8_small by lia. apply to_int16_small. lia.
Qed.

Lemma rd_byte a i : Forall byte a -> byte (rd a i).
Proof.
  intros Ha. unfold rd. destruct (a !! Z.to_nat i) as [v|] eqn:E; simpl.
  - eapply Forall_lookup_1; eauto.
  - unfold byte. lia.
Qed.

Lemma wr_byte a i v : Forall byte a -> byte v -> Forall byte (wr a i v).
Proof. intros Ha Hv. unfold wr. by apply Forall_insert. Qed.

Lemma rd_wr_eq a i v : 0 <= i -> (Z.to_nat i < length a)%nat -> rd (wr a i v) i = v.
Proof. intros Hi Hl. unfold rd, wr. by rewrite list_lookup_insert_eq. Qed.

Lemma rd_wr_ne a i j v : 0 <= i -> 0 <= j -> i <> j -> rd (wr a i v) j = rd a j.
Proof.
  intros Hi Hj Hne. unfold rd, wr. rewrite list_lookup_insert_ne; [done | lia].
Qed.

Arguments to_uint8 : simpl never.
Arguments to_uint16 : simpl never.
Arguments to_int8 : simpl never.
Arguments to_int16 : simpl never.
Arguments rd : simpl never.
Arguments wr : simpl never.

(** ** Bits and arithmetic *)

Lemma byte_high_bits b n : byte b -> 8 <= n -> Z.testbit b n = false.
Proof.
  intros [Hb0 Hb] Hn. destruct (Z.eq_dec b 0) as [-> | Hne].
  - apply Z.bits_0.
  - apply Z.bits_above_log2; [done |].
    assert (Z.log2 b < 8) by (apply Z.log2_lt_pow2; [lia | change (2 ^ 8) with 256; lia]).
    lia.
Qed.

Lemma lor_shiftl_byte a b : 0 <= a -> byte b -> Z.lor (Z.shiftl a 8) b = 256 * a + b.
Proof.
  intros Ha Hb.
  assert (Z.land (Z.shiftl a 8) b = 0) as Hdisj.
  { apply Z.bits_inj'. intros n Hn. rewrite Z.land_spec, Z.bits_0.
    destruct (Z.lt_ge_cases n 8).
    - by rewrite Z.shiftl_spec_low.
    - rewrite (byte_high_bits b n) by done. apply andb_false_r. }
  pose proof (Z.add_lor_land (Z.shiftl a 8) b) as Hadd.
  rewrite Hdisj in Hadd. rewrite Z.shiftl_mul_pow2 in Hadd |- * by lia.
  change (2 ^ 8) with 256 in *. lia.
Qed.

(** The word [BR] puts into the program counter. *)
Lemma branch_target_bytes a b :
  byte a -> byte b -> to_uint16 (Z.lor (Z.shiftl (to_uint16 a) 8) b) = 256 * a + b.
Proof.
  intros Ha Hb. rewrite (to_uint16_id a) by (unfold byte, word16 in *; lia).
  rewrite lor_shiftl_byte by (unfold byte in *; lia || done).
  apply to_uint16_id. unfold byte, word16 in *. lia.
Qed.

Lemma land_0x100_testbit x : negb (Z.land x 0x100 =? 0) = Z.testbit x 8.
Proof.
  assert (Z.land x 0x100 = if Z.testbit x 8 then 0x100 else 0) as ->.
  { apply Z.bits_inj'. intros n Hn. rewrite Z.land_spec.
    change 0x100 with (2 ^ 8). rewrite Z.pow2_bits_eqb by lia.
    destruct (Z.eqb_spec 8 n) as [<- | Hne].
    - destruct (Z.testbit x 8); [by rewrite Z.pow2_bits_eqb | by rewrite Z.bits_0].
    - rewrite andb_false_r. destruct (Z.testbit x 8); [| by rewrite Z.bits_0].
      rewrite Z.pow2_bits_eqb by lia. symmetry. by apply Z.eqb_neq. }
  by destruct (Z.testbit x 8).
Qed.

Lemma to_uint16_testbit x n : 0 <= n < 16 -> Z.testbit (to_uint16 x) n = Z.testbit x n.
Proof.
  intros Hn. unfold to_uint16. change 65536 with (2 ^ 16).
  apply Z.mod_pow2_bits_low. lia.
Qed.

(** ** The status register after [update_flags] *)

(** The status register as a sum of the flag masks whose tests passed.
    The mask of S is added when the test of N or the test of V passed:
    [update_flags] compares bit 0 of [(SREG & FLAG_N) >> 1] with bit 2 of
    [SREG & FLAG_V], so their exclusive or is non-zero as soon as one of
    the two flags is set. *)
Lemma update_flags_SREG p result val1 val2 op :
  SREG (update_flags p result val1 val2 op)
  = bit_if (result_zero result) FLAG_Z
    + bit_if (result_negative result) FLAG_N
    + bit_if (add_or_sub op && carry_out val1 val2 op) FLAG_C
    + bit_if (add_or_sub op && overflow_bit result val1 val2) FLAG_V
    + bit_if (add_or_sub op
              && (result_negative result || overflow_bit result val1 val2)) FLAG_S.
Proof.
  unfold update_flags, result_zero, result_negative, carry_out, overflow_bit,
    add_or_sub.
  destruct (result =? 0); destruct (Z.land result 0x80 =? 0);
    (destruct (op =? 0); [| destruct (op =? 1)]); cbv beta iota zeta delta [orb];
    try reflexivity;
    match goal with |- context [Z.land ?t 0x100 =? 0] => destruct (Z.land t 0x100 =? 0) end;
    match goal with |- context [to_uint8 ?t =? 0] => destruct (to_uint8 t =? 0) end;
    reflexivity.
Qed.

Lemma update_flags_frame p result val1 val2 op :
  update_flags p result val1 val2 op
  = set_SREG (SREG (update_flags p result val1 val2 op)) p.
Proof. reflexivity. Qed.

Lemma update_flags_byte p result val1 val2 op :
  byte (SREG (update_flags p result val1 val2 op)).
Proof.
  rewrite update_flags_SREG. unfold byte, bit_if.
  destruct (result_zero result), (result_negative result), (add_or_sub op),
    (carry_out val1 val2 op), (overflow_bit result val1 val2); vm_compute;
    split; congruence.
Qed.

Lemma update_flags_flags p result val1 val2 op :
  let q := update_flags p result val1 val2 op in
  flag FLAG_Z q = result_zero result
  /\ flag FLAG_N q = result_negative result
  /\ flag FLAG_C q = add_or_sub op && carry_out val1 val2 op
  /\ flag FLAG_V q = add_or_sub op && overflow_bit result val1 val2
  /\ flag FLAG_S q
     = add_or_sub op && (result_negative result || overflow_bit result val1 val2).
Proof.
  cbv zeta. unfold flag. rewrite update_flags_SREG.
  destruct (result_zero result), (result_negative result), (add_or_sub op),
    (carry_out val1 val2 op), (overflow_bit result val1 val2);
    repeat split; reflexivity.
Qed.

(** Carry is bit 8 of the sum, or of the difference of the operands read
    as signed bytes. *)
Lemma carry_out_bit8 val1 val2 op :
  carry_out val1 val2 op
  = Z.testbit (if op =? 0 then val1 + val2 else to_int8 val1 - to_int8 val2) 8.
Proof.
  unfold carry_out. rewrite land_0x100_testbit.
  destruct (op =? 0); apply to_uint16_testbit; lia.
Qed.

(** ** The cases of [execute] *)

Lemma execute_invalid p : ID_EX_valid (ID_EX p) = false -> execute p = p.
Proof. intros H. unfold execute. by rewrite H. Qed.

Lemma execute_writes_back p :
  ID_EX_valid (ID_EX p) = true ->
  writes_back (ID_EX_opcode (ID_EX p)) = true ->
  execute p
  = set_ID_EX_valid false
      (update_flags
         (if negb (ID_EX_rs (ID_EX p) =? 0)
          then set_Register (wr (Register p) (ID_EX_rs (ID_EX p)) (switch_result p)) p
          else p)
         (switch_result p) (ID_EX_valueRS (ID_EX p)) (operand2 p)
         (ID_EX_opcode (ID_EX p))).
Proof.
  intros Hv Hop. unfold execute, switch_result, operand2, execute_switch.
  rewrite Hv. unfold writes_back in Hop. bool_to_Z; rewrite Hop; reflexivity.
Qed.

Lemma execute_no_case p :
  ID_EX_valid (ID_EX p) = true ->
  has_case (ID_EX_opcode (ID_EX p)) = false ->
  execute p = set_ID_EX_valid false p.
Proof.
  intros Hv Hop. unfold execute, execute_switch. rewrite Hv.
  unfold has_case, writes_back in Hop. bool_to_Z.
  destruct (ID_EX_opcode (ID_EX p)) as [|q|q]; try reflexivity; try lia.
  do 4 (try destruct q as [q|q|]); try reflexivity; lia.
Qed.

Lemma execute_BEQZ_taken p :
  ID_EX_valid (ID_EX p) = true ->
  ID_EX_opcode (ID_EX p) = 4 ->
  rd (Register p) (ID_EX_rs (ID_EX p)) = 0 ->
  execute p
  = set_ID_EX_valid false
      (set_IF_ID_valid false
         (set_PC (to_uint16 (ID_EX_pc (ID_EX p) + 1 + to_int8 (ID_EX_imm (ID_EX p))))
            p)).
Proof.
  intros Hv Hop Hz. unfold execute, execute_switch. rewrite Hv, Hop, Hz. reflexivity.
Qed.

Lemma execute_BEQZ_not_taken p :
  ID_EX_valid (ID_EX p) = true ->
  ID_EX_opcode (ID_EX p) = 4 ->
  rd (Register p) (ID_EX_rs (ID_EX p)) <> 0 ->
  execute p = set_ID_EX_valid false p.
Proof.
  intros Hv Hop Hz. unfold execute, execute_switch. rewrite Hv, Hop.
  apply Z.eqb_neq in Hz. rewrite Hz. reflexivity.
Qed.

Lemma execute_BR p :
  ID_EX_valid (ID_EX p) = true ->
  ID_EX_opcode (ID_EX p) = 7 ->
  execute p
  = set_ID_EX_valid false
      (set_IF_ID_valid false
         (set_PC
            (to_uint16
               (Z.lor (Z.shiftl (to_uint16 (rd (Register p) (ID_EX_rs (ID_EX p)))) 8)
                      (rd (Register p) (ID_EX_rt (ID_EX p)))))
            p)).
Proof.
  intros Hv Hop. unfold execute, execute_switch. rewrite Hv, Hop. reflexivity.
Qed.

Lemma execute_STR p :
  ID_EX_valid (ID_EX p) = true ->
  ID_EX_opcode (ID_EX p) = 11 ->
  execute p
  = set_ID_EX_valid false
      (mem_write_data p (to_uint16 (to_int8 (ID_EX_imm (ID_EX p))))
         (rd (Register p) (ID_EX_rs (ID_EX p)))).
Proof.
  intros Hv Hop. unfold execute, execute_switch. rewrite Hv, Hop. reflexivity.
Qed.

(** Every state falls under one of the cases above. *)
Lemma opcode_cases (opcode : Z) :
  writes_back opcode = true \/ opcode = 4 \/ opcode = 7 \/ opcode = 11
  \/ has_case opcode = false.
Proof.
  unfold has_case. destruct (writes_back opcode); [by left | right].
  destruct (Z.eqb_spec opcode 4); [by left | right].
  destruct (Z.eqb_spec opcode 7); [by left | right].
  destruct (Z.eqb_spec opcode 11); [by left | by right].
Qed.

(** ** Well-formedness is kept by every stage *)

Lemma wf_arch_set_IF_ID v p : wf_arch p -> wf_arch (set_IF_ID v p).
Proof. done. Qed.

Lemma wf_arch_set_ID_EX v p : wf_arch p -> wf_arch (set_ID_EX v p).
Proof. done. Qed.

Lemma wf_arch_set_EX i pc v p : wf_arch p -> wf_arch (set_EX i pc v p).
Proof. done. Qed.

Lemma wf_arch_set_PC v p : word16 v -> wf_arch p -> wf_arch (set_PC v p).
Proof. intros Hv Hp. unfold wf_arch in *. simpl. tauto. Qed.

Lemma wf_arch_set_SREG v p : byte v -> wf_arch p -> wf_arch (set_SREG v p).
Proof. intros Hv Hp. unfold wf_arch in *. simpl. tauto. Qed.

Lemma wf_arch_wr_Register i v p :
  byte v -> wf_arch p -> wf_arch (set_Register (wr (Register p) i v) p).
Proof.
  intros Hv Hp. pose proof (wr_byte (Register p) i v) as Hw.
  unfold wf_arch, wr in *. simpl. rewrite length_insert. tauto.
Qed.

Lemma wf_arch_mem_write_data addr data p :
  byte data -> wf_arch p -> wf_arch (mem_write_data p addr data).
Proof.
  intros Hv Hp. unfold mem_write_data. destruct (2048 <=? addr); [done |].
  pose proof (wr_byte (data_mem p) addr data) as Hw.
  unfold wf_arch, wr in *. simpl. rewrite length_insert. tauto.
Qed.

Lemma mem_read_data_byte p addr : wf_arch p -> byte (mem_read_data p addr).
Proof.
  intros (? & ? & ? & ? & ? & ? & ? & ?). unfold mem_read_data.
  destruct (2048 <=? addr); [unfold byte; lia | by apply rd_byte].
Qed.

Lemma switch_result_byte p :
  wf_arch p -> writes_back (ID_EX_opcode (ID_EX p)) = true -> byte (switch_result p).
Proof.
  intros Hp Hop. unfold switch_result, execute_switch, writes_back in *.
  bool_to_Z; rewrite Hop; try apply to_uint8_byte. by apply mem_read_data_byte.
Qed.

Lemma wf_invalidate p : wf_arch p -> wf (set_ID_EX_valid false p).
Proof. intros Hp. split; [done | discriminate]. Qed.

Lemma execute_latch_invalid p : ID_EX_valid (ID_EX (execute p)) = false.
Proof.
  destruct (ID_EX_valid (ID_EX p)) eqn:Hv.
  - destruct (opcode_cases (ID_EX_opcode (ID_EX p))) as [H | [H | [H | [H | H]]]].
    + by rewrite execute_writes_back.
    + destruct (Z.eq_dec (rd (Register p) (ID_EX_rs (ID_EX p))) 0).
      * by rewrite execute_BEQZ_taken.
      * by rewrite execute_BEQZ_not_taken.
    + by rewrite execute_BR.
    + by rewrite execute_STR.
    + by rewrite execute_no_case.
  - by rewrite execute_invalid.
Qed.

Lemma wf_execute p : wf p -> wf (execute p).
Proof.
  intros [Hp HL]. destruct (ID_EX_valid (ID_EX p)) eqn:Hv.
  - destruct (opcode_cases (ID_EX_opcode (ID_EX p))) as [H | [H | [H | [H | H]]]].
    + rewrite execute_writes_back by done. apply wf_invalidate.
      rewrite update_flags_frame. apply wf_arch_set_SREG; [apply update_flags_byte |].
      destruct (negb _); [| done].
      apply wf_arch_wr_Register; [by apply switch_result_byte | done].
    + destruct (Z.eq_dec (rd (Register p) (ID_EX_rs (ID_EX p))) 0).
      * rewrite execute_BEQZ_taken by done. apply wf_invalidate, wf_arch_set_IF_ID.
        apply wf_arch_set_PC; [apply to_uint16_word16 | done].
      * rewrite execute_BEQZ_not_taken by done. by apply wf_invalidate.
    + rewrite execute_BR by done. apply wf_invalidate, wf_arch_set_IF_ID.
      apply wf_arch_set_PC; [apply to_uint16_word16 | done].
    + rewrite execute_STR by done. apply wf_invalidate.
      apply wf_arch_mem_write_data; [| done].
      destruct Hp as (? & ? & _). by apply rd_byte.
    + rewrite execute_no_case by done. by apply wf_invalidate.
  - rewrite execute_invalid by done. split; [done | congruence].
Qed.

(** [decode] fills the latch from the instruction word and with the register
    values of this very instant. *)
Lemma decode_latch_ok p :
  IF_ID_valid (IF_ID p) = true -> latch_ok (decode p).
Proof.
  intros Hv. unfold decode. rewrite Hv. cbn [negb]. unfold latch_ok. cbn.
  rewrite decode_low_bits.
  pose proof (land_0x0F (Z.shiftr (IF_ID_instr (IF_ID p)) 12)) as Ho.
  pose proof (land_0x3F (Z.shiftr (IF_ID_instr (IF_ID p)) 6)) as Hs.
  pose proof (land_0x3F (IF_ID_instr (IF_ID p))) as Ht.
  rewrite !to_uint8_id by (unfold byte; lia).
  split_and!; reflexivity.
Qed.

(** All latched fields are in range; the immediate is never negative. *)
Lemma latch_ok_ranges p :
  latch_ok p ->
  0 <= ID_EX_opcode (ID_EX p) < 16 /\ 0 <= ID_EX_rs (ID_EX p) < 64
  /\ 0 <= ID_EX_rt (ID_EX p) < 64 /\ 0 <= ID_EX_imm (ID_EX p) < 64.
Proof.
  intros (Ho & Hs & Ht & Hi & _).
  pose proof (land_0x0F (Z.shiftr (ID_EX_instr (ID_EX p)) 12)).
  pose proof (land_0x3F (Z.shiftr (ID_EX_instr (ID_EX p)) 6)).
  pose proof (land_0x3F (ID_EX_instr (ID_EX p))).
  rewrite Ho, Hs, Ht, Hi. split_and!; try lia; destruct (imm_class _); lia.
Qed.

Lemma wf_decode p : wf p -> wf (decode p).
Proof.
  intros [Hp HL]. destruct (IF_ID_valid (IF_ID p)) eqn:Hv.
  - split; [| intros _; by apply decode_latch_ok].
    unfold decode. rewrite Hv. done.
  - unfold decode. rewrite Hv. done.
Qed.

Lemma wf_fetch p : wf p -> wf (fetch p).
Proof.
  intros [Hp HL]. unfold fetch. destruct (PC p <? 1024); [| done].
  destruct (rd (instr_mem p) (PC p) =? 0).
  - split; [| done]. apply wf_arch_set_PC; [unfold word16; lia | done].
  - split; [| done]. apply wf_arch_set_PC; [apply to_uint16_word16 | done].
Qed.

Lemma wf_process_cycle p : wf p -> wf (process_cycle p).
Proof.
  intros Hp. unfold process_cycle.
  set (q := decode (execute _)).
  assert (wf q) as Hq by (apply wf_decode, wf_execute; destruct Hp; by split).
  destruct (PC q <? 1024); [by apply wf_fetch | done].
Qed.

(** ** States the simulator can reach *)

Lemma wf_proc_init : wf proc_init.
Proof.
  split; [| discriminate]. unfold wf_arch, proc_init.
  cbn [Register SREG PC instr_mem data_mem]. rewrite !length_replicate.
  repeat split; try lia; apply Forall_replicate; done.
Qed.

Lemma wf_mem_init p : wf p -> wf (mem_init p).
Proof.
  intros [Hp HL]. split; [| done]. unfold wf_arch, mem_init, set_data_mem,
    set_instr_mem in *. cbn [Register SREG PC instr_mem data_mem].
  rewrite !length_replicate. destruct Hp as (? & ? & ? & ? & ? & ? & ? & ?).
  split_and!; try done; apply Forall_replicate; done.
Qed.

Lemma wf_store_program prog : forall addr p, wf p -> wf (store_program prog addr p).
Proof.
  induction prog as [| [[opcode r1] operand] rest IH]; intros addr p Hp; simpl.
  - done.
  - destruct (addr <? 1024); [| done]. apply IH.
    destruct Hp as [Hp HL]. split; [| done].
    pose proof (to_uint16_word16 (Z.lor (Z.lor (Z.shiftl opcode 12)
      (Z.shiftl (Z.land (to_uint8 r1) 0x3F) 6)) (Z.land (to_uint8 operand) 0x3F))).
    unfold wf_arch, wr, encode in *. simpl. rewrite length_insert.
    destruct Hp as (? & ? & ? & ? & ? & ? & ? & ?).
    split_and!; try done. by apply Forall_insert.
Qed.

Lemma wf_boot prog : wf (boot prog).
Proof. apply wf_store_program, wf_mem_init, wf_proc_init. Qed.

Lemma wf_run n p : wf p -> wf (run n p).
Proof.
  intros Hp. induction n as [| n IH]; simpl; [done | by apply wf_process_cycle].
Qed.

(** Whenever execute finds a valid latch on a state the simulator reaches,
    the latched operand values are those the register file holds at that
    moment: execute is the only stage that writes registers, and nothing
    runs between the decode of one cycle and the execute of the next. *)
Lemma latched_operands_fresh prog n :
  let p := run n (boot prog) in
  ID_EX_valid (ID_EX p) = true ->
  ID_EX_valueRS (ID_EX p) = rd (Register p) (ID_EX_rs (ID_EX p))
  /\ ID_EX_valueRT (ID_EX p) = rd (Register p) (ID_EX_rt (ID_EX p)).
Proof.
  intros p Hv. destruct (wf_run n (boot prog) (wf_boot prog)) as [_ HL].
  destruct (HL Hv) as (_ & _ & _ & _ & Hs & Ht). done.
Qed.

(** ** What each stage leaves alone *)

Lemma decode_frame p :
  Register (decode p) = Register p /\ SREG (decode p) = SREG p
  /\ PC (decode p) = PC p /\ data_mem (decode p) = data_mem p
  /\ instr_mem (decode p) = instr_mem p.
Proof. unfold decode. destruct (negb _); done. Qed.

Lemma fetch_frame p :
  Register (fetch p) = Register p /\ SREG (fetch p) = SREG p
  /\ data_mem (fetch p) = data_mem p /\ instr_mem (fetch p) = instr_mem p
  /\ ID_EX (fetch p) = ID_EX p.
Proof. unfold fetch. destruct (_ <? _); [destruct (_ =? _) |]; done. Qed.

(** The register file after [execute]: one cell is written, and only when
    the latch is valid, the opcode writes back and the index is not 0. *)
Lemma execute_Register p :
  Register (execute p)
  = if ID_EX_valid (ID_EX p) && writes_back (ID_EX_opcode (ID_EX p))
       && negb (ID_EX_rs (ID_EX p) =? 0)
    then wr (Register p) (ID_EX_rs (ID_EX p)) (switch_result p)
    else Register p.
Proof.
  destruct (ID_EX_valid (ID_EX p)) eqn:Hv; [| by rewrite execute_invalid].
  destruct (opcode_cases (ID_EX_opcode (ID_EX p))) as [H | [H | [H | [H | H]]]].
  - rewrite execute_writes_back, H by done. simpl. by destruct (negb _).
  - rewrite H. simpl. destruct (Z.eq_dec (rd (Register p) (ID_EX_rs (ID_EX p))) 0).
    + by rewrite execute_BEQZ_taken.
    + by rewrite execute_BEQZ_not_taken.
  - rewrite execute_BR, H by done. done.
  - rewrite execute_STR, H by done. simpl.
    unfold mem_write_data. by destruct (2048 <=? _).
  - rewrite execute_no_case by done.
    unfold has_case in H. apply orb_false_iff in H as [H _].
    apply orb_false_iff in H as [H _]. apply orb_false_iff in H as [H _].
    by rewrite H.
Qed.

(** The snapshot into the shadow record is invisible to the switch. *)
Lemma switch_result_set_EX i pc v p :
  switch_result (set_EX i pc v p) = switch_result p.
Proof.
  unfold switch_result, execute_switch, mem_read_data.
  cbn [set_EX ID_EX Register data_mem].
  destruct (ID_EX_opcode (ID_EX p)) as [| q | q]; try reflexivity.
  do 4 (try destruct q as [q | q |]); try reflexivity.
  by destruct (_ =? 0).
Qed.

Lemma process_cycle_Register p :
  Register (process_cycle p) = Register (execute p).
Proof.
  unfold process_cycle.
  set (s := set_EX _ _ _ p). set (q := decode (execute s)).
  assert (Register q = Register (execute s)) as Hq by apply decode_frame.
  assert (Register (execute s) = Register (execute p)) as Hs.
  { rewrite !execute_Register. subst s. by rewrite switch_result_set_EX. }
  destruct (PC q <? 1024); [| congruence].
  transitivity (Register q); [apply fetch_frame | congruence].
Qed.

(** ** The data store *)

Lemma mem_write_then_read p a V :
  (Z.to_nat a < length (data_mem p))%nat -> 0 <= a < 2048 ->
  mem_read_data (mem_write_data p a V) a = V.
Proof.
  intros Hlen Ha. unfold mem_read_data, mem_write_data.
  assert ((2048 <=? a) = false) as -> by (apply Z.leb_gt; lia).
  cbn [data_mem set_data_mem]. apply rd_wr_eq; [lia | done].
Qed.

Lemma mem_out_of_range p a V :
  2048 <= a -> mem_write_data p a V = p /\ mem_read_data p a = 0.
Proof.
  intros Ha. unfold mem_read_data, mem_write_data.
  assert ((2048 <=? a) = true) as -> by (apply Z.leb_le; lia). done.
Qed.

(** The register file after a valid LDR. *)
Lemma execute_LDR_Register p :
  ID_EX_valid (ID_EX p) = true ->
  ID_EX_opcode (ID_EX p) = 10 ->
  ID_EX_rs (ID_EX p) <> 0 ->
  Register (execute p)
  = wr (Register p) (ID_EX_rs (ID_EX p))
      (mem_read_data p (to_uint16 (to_int8 (ID_EX_imm (ID_EX p))))).
Proof.
  intros Hv Hop Hrs. rewrite execute_Register, Hv, Hop.
  apply Z.eqb_neq in Hrs. rewrite Hrs. cbn [andb negb writes_back Z.eqb orb].
  unfold switch_result, execute_switch. by rewrite Hop.
Qed.

(** ** Write-back and flags of the fall-through opcodes *)

Lemma execute_flag p f :
  ID_EX_valid (ID_EX p) = true ->
  writes_back (ID_EX_opcode (ID_EX p)) = true ->
  flag f (execute p)
  = flag f (update_flags p (switch_result p) (ID_EX_valueRS (ID_EX p)) (operand2 p)
              (ID_EX_opcode (ID_EX p))).
Proof. intros Hv Hop. by rewrite execute_writes_back. Qed.

Lemma execute_result_register p :
  ID_EX_valid (ID_EX p) = true ->
  writes_back (ID_EX_opcode (ID_EX p)) = true ->
  0 < ID_EX_rs (ID_EX p) ->
  (Z.to_nat (ID_EX_rs (ID_EX p)) < length (Register p))%nat ->
  rd (Register (execute p)) (ID_EX_rs (ID_EX p)) = switch_result p.
Proof.
  intros Hv Hop Hrs Hlen. rewrite execute_Register, Hv, Hop.
  assert ((ID_EX_rs (ID_EX p) =? 0) = false) as -> by (apply Z.eqb_neq; lia).
  cbn [andb negb]. apply rd_wr_eq; [lia | done].
Qed.

(** ** The cycle *)

Lemma execute_shadow p :
  EX_instr (execute p) = EX_instr p /\ EX_pc (execute p) = EX_pc p
  /\ EX_valid (execute p) = EX_valid p.
Proof.
  destruct (ID_EX_valid (ID_EX p)) eqn:Hv; [| by rewrite execute_invalid].
  destruct (opcode_cases (ID_EX_opcode (ID_EX p))) as [H | [H | [H | [H | H]]]].
  - rewrite execute_writes_back by done. by destruct (negb _).
  - destruct (Z.eq_dec (rd (Register p) (ID_EX_rs (ID_EX p))) 0).
    + by rewrite execute_BEQZ_taken.
    + by rewrite execute_BEQZ_not_taken.
  - by rewrite execute_BR.
  - rewrite execute_STR by done. unfold mem_write_data. by destruct (2048 <=? _).
  - by rewrite execute_no_case.
Qed.

Lemma decode_shadow p :
  EX_instr (decode p) = EX_instr p /\ EX_pc (decode p) = EX_pc p
  /\ EX_valid (decode p) = EX_valid p.
Proof. unfold decode. by destruct (negb _). Qed.

Lemma fetch_shadow p :
  EX_instr (fetch p) = EX_instr p /\ EX_pc (fetch p) = EX_pc p
  /\ EX_valid (fetch p) = EX_valid p.
Proof. unfold fetch. destruct (_ <? _); [destruct (_ =? _) |]; done. Qed.

(** A taken branch leaves both latches invalid and the other latch fields
    as they were. *)
Lemma execute_branch_taken p :
  branch_taken p = true ->
  IF_ID_valid (IF_ID (execute p)) = false
  /\ ID_EX (execute p) = ID_EX (set_ID_EX_valid false p).
Proof.
  unfold branch_taken. intros H.
  apply andb_true_iff in H as [Hv H]. apply orb_true_iff in H as [H | H].
  - apply Z.eqb_eq in H. by rewrite execute_BR.
  - apply andb_true_iff in H as [Hop Hz]. apply Z.eqb_eq in Hop, Hz.
    by rewrite execute_BEQZ_taken.
Qed.

Lemma decode_invalid p : IF_ID_valid (IF_ID p) = false -> decode p = p.
Proof. intros H. unfold decode. by rewrite H. Qed.

(** Once the termination test of [main] holds, a further cycle only
    refreshes the shadow record, and the test holds again. *)
Lemma drained_stays_drained p :
  drained p = true ->
  process_cycle p = snapshot p /\ drained (process_cycle p) = true.
Proof.
  unfold drained. intros H.
  apply andb_true_iff in H as [H HPC]. apply andb_true_iff in H as [H HID].
  apply andb_true_iff in H as [HEX HIF].
  apply negb_true_iff in HEX, HIF, HID. apply Z.leb_le in HPC.
  assert (process_cycle p = snapshot p) as ->.
  { unfold process_cycle. fold (snapshot p).
    rewrite (execute_invalid (snapshot p)) by done.
    rewrite (decode_invalid (snapshot p)) by done.
    assert ((PC (snapshot p) <? 1024) = false) as -> by (apply Z.ltb_ge; done).
    done. }
  split; [done |]. cbn [snapshot set_EX EX_valid IF_ID ID_EX PC].
  rewrite HIF, HID. cbn [negb andb]. by apply Z.leb_le.
Qed.

(** ** The immediate of a taken BEQZ *)

(** On every state the simulator reaches, a taken BEQZ adds the low six
    bits of its instruction word, read as a number from 0 to 63, to the
    latched program counter plus one. *)
Lemma BEQZ_target_unsigned p :
  wf p ->
  ID_EX_valid (ID_EX p) = true ->
  ID_EX_opcode (ID_EX p) = 4 ->
  rd (Register p) (ID_EX_rs (ID_EX p)) = 0 ->
  PC (execute p)
  = to_uint16 (ID_EX_pc (ID_EX p) + 1 + Z.land (ID_EX_instr (ID_EX p)) 0x3F).
Proof.
  intros [_ HL] Hv Hop Hz. rewrite execute_BEQZ_taken by done.
  destruct (HL Hv) as (_ & _ & _ & Himm & _). rewrite Hop in Himm.
  change (imm_class 4) with true in Himm.
  cbn [PC set_ID_EX_valid set_IF_ID_valid set_ID_EX set_IF_ID set_PC].
  rewrite Himm.
  pose proof (land_0x3F (ID_EX_instr (ID_EX p))).
  rewrite to_int8_small by lia. done.
Qed.

(** * The claims *)

(** C1 fails on both counts.  64 + 64 = 128 sets N and V, and S as well,
    although N xor V is 0; 16 * 8 = 128 sets N and leaves S clear. *)
Lemma sign_flag_counterexample :
  (ID_EX_valid (ID_EX add_64_64) = true
   /\ ID_EX_opcode (ID_EX add_64_64) = 0
   /\ flag FLAG_N (execute add_64_64) = true
   /\ flag FLAG_V (execute add_64_64) = true
   /\ flag FLAG_S (execute add_64_64) = true
   /\ ~ sign_as_specified 0 (execute add_64_64))
  /\ (ID_EX_valid (ID_EX mul_16_8) = true
      /\ ID_EX_opcode (ID_EX mul_16_8) = 2
      /\ flag FLAG_N (execute mul_16_8) = true
      /\ flag FLAG_S (execute mul_16_8) = false
      /\ ~ sign_as_specified 2 (execute mul_16_8)).
Proof. split; split_and!; by_evaluation. Qed.

(** C1, amended: after an ADD or a SUB that does not set N and V together,
    S is N xor V; after any other opcode that writes back, S, V and C are
    all clear, whatever N is. *)
Theorem sign_flag_after_write_back (p : Processor) :
  ID_EX_valid (ID_EX p) = true ->
  writes_back (ID_EX_opcode (ID_EX p)) = true ->
  let q := execute p in
  (add_or_sub (ID_EX_opcode (ID_EX p)) = true ->
   flag FLAG_N q && flag FLAG_V q = false ->
   flag FLAG_S q = xorb (flag FLAG_N q) (flag FLAG_V q))
  /\ (add_or_sub (ID_EX_opcode (ID_EX p)) = false ->
      flag FLAG_S q = false /\ flag FLAG_V q = false /\ flag FLAG_C q = false).
Proof.
  intros Hv Hwb q. subst q. rewrite !execute_flag by done.
  pose proof (update_flags_flags p (switch_result p) (ID_EX_valueRS (ID_EX p))
                (operand2 p) (ID_EX_opcode (ID_EX p))) as (_ & HN & HC & HV & HS).
  rewrite HN, HC, HV, HS. split.
  - intros -> Hnv. cbn [andb] in *.
    by destruct (result_negative _), (overflow_bit _ _ _).
  - by intros ->.
Qed.

Lemma sign_flag_after_write_back_witness :
  (add_or_sub (ID_EX_opcode (ID_EX add_200_3)) = true
   /\ flag FLAG_N (execute add_200_3) = true
   /\ flag FLAG_V (execute add_200_3) = false
   /\ flag FLAG_S (execute add_200_3) = true)
  /\ (add_or_sub (ID_EX_opcode (ID_EX mul_16_8)) = false
      /\ flag FLAG_S (execute mul_16_8) = false
      /\ flag FLAG_V (execute mul_16_8) = false
      /\ flag FLAG_C (execute mul_16_8) = false).
Proof.
  assert (ID_EX_valid (ID_EX add_200_3) = true) as Hv1 by by_evaluation.
  assert (writes_back (ID_EX_opcode (ID_EX add_200_3)) = true) as Hw1 by by_evaluation.
  assert (add_or_sub (ID_EX_opcode (ID_EX add_200_3)) = true) as Ha1 by by_evaluation.
  assert (flag FLAG_N (execute add_200_3) = true) as HN by by_evaluation.
  assert (flag FLAG_V (execute add_200_3) = false) as HV by by_evaluation.
  assert (ID_EX_valid (ID_EX mul_16_8) = true) as Hv2 by by_evaluation.
  assert (writes_back (ID_EX_opcode (ID_EX mul_16_8)) = true) as Hw2 by by_evaluation.
  assert (add_or_sub (ID_EX_opcode (ID_EX mul_16_8)) = false) as Ha2 by by_evaluation.
  destruct (sign_flag_after_write_back add_200_3 Hv1 Hw1) as [Hadd _].
  destruct (sign_flag_after_write_back mul_16_8 Hv2 Hw2) as [_ Hmul].
  assert (flag FLAG_N (execute add_200_3) && flag FLAG_V (execute add_200_3) = false)
    as Hnv by (by rewrite HN, HV).
  pose proof (Hadd Ha1 Hnv) as HS. rewrite HN, HV in HS.
  exact (conj (conj Ha1 (conj HN (conj HV HS))) (conj Ha2 (Hmul Ha2))).
Defined.

(** C2 fails: with N set beforehand, an untaken BEQZ and opcode 12 both
    leave the status register at N (0x02), where recomputing it for the
    result 0 would give Z (0x10). *)
Lemma no_op_flags_counterexample :
  (ID_EX_valid (ID_EX beqz_untaken) = true
   /\ ID_EX_opcode (ID_EX beqz_untaken) = 4
   /\ rd (Register beqz_untaken) (ID_EX_rs (ID_EX beqz_untaken)) = 240
   /\ SREG beqz_untaken = FLAG_N
   /\ SREG (execute beqz_untaken) = FLAG_N
   /\ recomputed_SREG beqz_untaken = FLAG_Z
   /\ ~ flag_updating_no_op beqz_untaken)
  /\ (ID_EX_valid (ID_EX undefined_opcode) = true
      /\ ID_EX_opcode (ID_EX undefined_opcode) = 12
      /\ SREG undefined_opcode = FLAG_N
      /\ SREG (execute undefined_opcode) = FLAG_N
      /\ recomputed_SREG undefined_opcode = FLAG_Z
      /\ ~ flag_updating_no_op undefined_opcode).
Proof.
  assert (SREG (execute beqz_untaken) = FLAG_N) as H1 by by_evaluation.
  assert (recomputed_SREG beqz_untaken = FLAG_Z) as H2 by by_evaluation.
  assert (SREG (execute undefined_opcode) = FLAG_N) as H3 by by_evaluation.
  assert (recomputed_SREG undefined_opcode = FLAG_Z) as H4 by by_evaluation.
  assert (FLAG_N <> FLAG_Z) as Hne by discriminate.
  split; split_and!;
    lazymatch goal with
    | |- ~ _ => intros [_ H]; apply Hne; congruence
    | |- _ => by_evaluation
    end.
Qed.

(** C2, amended: an untaken BEQZ and an opcode from 12 to 15 only
    invalidate the decode-execute latch; register file, status register,
    program counter, data store and fetch-decode latch stay as they were. *)
Theorem untaken_BEQZ_and_undefined_change_nothing (p : Processor) :
  ID_EX_valid (ID_EX p) = true ->
  (ID_EX_opcode (ID_EX p) = 4 /\ rd (Register p) (ID_EX_rs (ID_EX p)) <> 0)
  \/ 12 <= ID_EX_opcode (ID_EX p) <= 15 ->
  let q := execute p in
  q = set_ID_EX_valid false p
  /\ Register q = Register p /\ SREG q = SREG p /\ PC q = PC p
  /\ data_mem q = data_mem p /\ IF_ID q = IF_ID p
  /\ ID_EX_valid (ID_EX q) = false.
Proof.
  intros Hv Hcase q.
  assert (q = set_ID_EX_valid false p) as ->; [| done].
  subst q. destruct Hcase as [[Hop Hnz] | Hop].
  - by apply execute_BEQZ_not_taken.
  - apply execute_no_case; [done |].
    assert (ID_EX_opcode (ID_EX p) = 12 \/ ID_EX_opcode (ID_EX p) = 13
            \/ ID_EX_opcode (ID_EX p) = 14 \/ ID_EX_opcode (ID_EX p) = 15)
      as [-> | [-> | [-> | ->]]] by lia; reflexivity.
Qed.

Lemma untaken_BEQZ_and_undefined_change_nothing_witness :
  (ID_EX_opcode (ID_EX beqz_untaken) = 4
   /\ rd (Register beqz_untaken) (ID_EX_rs (ID_EX beqz_untaken)) <> 0
   /\ Register (execute beqz_untaken) = Register beqz_untaken
   /\ SREG (execute beqz_untaken) = SREG beqz_untaken)
  /\ (12 <= ID_EX_opcode (ID_EX undefined_opcode) <= 15
      /\ Register (execute undefined_opcode) = Register undefined_opcode
      /\ SREG (execute undefined_opcode) = SREG undefined_opcode).
Proof.
  assert (ID_EX_valid (ID_EX beqz_untaken) = true) as Hv1 by by_evaluation.
  assert (ID_EX_opcode (ID_EX beqz_untaken) = 4) as Ho1 by by_evaluation.
  assert (rd (Register beqz_untaken) (ID_EX_rs (ID_EX beqz_untaken)) <> 0) as Hn1
    by by_evaluation.
  assert (ID_EX_valid (ID_EX undefined_opcode) = true) as Hv2 by by_evaluation.
  assert (12 <= ID_EX_opcode (ID_EX undefined_opcode) <= 15) as Ho2
    by (vm_compute; split; discriminate).
  destruct (untaken_BEQZ_and_undefined_change_nothing beqz_untaken Hv1
              (or_introl (conj Ho1 Hn1))) as (_ & HR1 & HS1 & _).
  destruct (untaken_BEQZ_and_undefined_change_nothing undefined_opcode Hv2
              (or_intror Ho2)) as (_ & HR2 & HS2 & _).
  exact (conj (conj Ho1 (conj Hn1 (conj HR1 HS1))) (conj Ho2 (conj HR2 HS2))).
Defined.

(** C3: one call of [process_cycle] is the snapshot, then execute, then
    decode, then fetch when the program counter is below 1024, and nothing
    else.  The shadow record therefore shows the latch as it was before
    execute touched it; and when execute takes a branch, decode finds the
    fetch-decode latch invalid and does nothing, so the decode-execute
    latch ends the cycle invalid with no new instruction in it. *)
Theorem process_cycle_order (p : Processor) :
  let executed := execute (snapshot p) in
  let decoded := decode executed in
  process_cycle p = (if PC decoded <? 1024 then fetch decoded else decoded)
  /\ EX_instr (process_cycle p) = ID_EX_instr (ID_EX p)
  /\ EX_pc (process_cycle p) = ID_EX_pc (ID_EX p)
  /\ EX_valid (process_cycle p) = ID_EX_valid (ID_EX p)
  /\ (branch_taken p = true ->
      IF_ID_valid (IF_ID executed) = false
      /\ decoded = executed
      /\ ID_EX_valid (ID_EX (process_cycle p)) = false
      /\ ID_EX (process_cycle p) = ID_EX (set_ID_EX_valid false p)).
Proof.
  intros executed decoded.
  assert (process_cycle p = (if PC decoded <? 1024 then fetch decoded else decoded))
    as Hpc by reflexivity.
  assert (EX_instr decoded = ID_EX_instr (ID_EX p)
          /\ EX_pc decoded = ID_EX_pc (ID_EX p)
          /\ EX_valid decoded = ID_EX_valid (ID_EX p)) as (Hi & Hp & Hv).
  { subst decoded executed.
    destruct (decode_shadow (execute (snapshot p))) as (-> & -> & ->).
    destruct (execute_shadow (snapshot p)) as (-> & -> & ->). done. }
  split_and!; [done | | | |].
  - rewrite Hpc. destruct (PC decoded <? 1024); [| done].
    by destruct (fetch_shadow decoded) as (-> & _).
  - rewrite Hpc. destruct (PC decoded <? 1024); [| done].
    by destruct (fetch_shadow decoded) as (_ & -> & _).
  - rewrite Hpc. destruct (PC decoded <? 1024); [| done].
    by destruct (fetch_shadow decoded) as (_ & _ & ->).
  - intros Hbr.
    destruct (execute_branch_taken (snapshot p) Hbr) as [Hif Hid].
    assert (decoded = executed) as Hd by (by apply decode_invalid).
    assert (ID_EX (process_cycle p) = ID_EX executed) as HE.
    { rewrite Hpc, Hd. destruct (PC executed <? 1024); [| done].
      apply fetch_frame. }
    split_and!; [done | done | | ].
    + rewrite HE. fold executed in Hid. by rewrite Hid.
    + rewrite HE. done.
Qed.

Lemma process_cycle_order_witness :
  branch_taken br_with_successor = true
  /\ IF_ID_valid (IF_ID br_with_successor) = true
  /\ IF_ID_valid (IF_ID (execute (snapshot br_with_successor))) = false
  /\ decode (execute (snapshot br_with_successor)) = execute (snapshot br_with_successor)
  /\ ID_EX_valid (ID_EX (process_cycle br_with_successor)) = false
  /\ ID_EX_instr (ID_EX (process_cycle br_with_successor))
     = ID_EX_instr (ID_EX br_with_successor).
Proof.
  assert (branch_taken br_with_successor = true) as Hbr by by_evaluation.
  assert (IF_ID_valid (IF_ID br_with_successor) = true) as Hif by by_evaluation.
  destruct (process_cycle_order br_with_successor) as (_ & _ & _ & _ & Hflush).
  destruct (Hflush Hbr) as (H1 & H2 & H3 & H4).
  refine (conj Hbr (conj Hif (conj H1 (conj H2 (conj H3 _))))).
  etransitivity; [exact (f_equal ID_EX_instr H4) | by_evaluation].
Defined.

(** C4 at [BEQZ R1 -2] fetched at address 5 with register 1 holding 0: the
    latched immediate is 62, not -2, and execute sets the program counter
    to 5 + 1 + 62 = 68, not to 5 - 1 = 4.  Both latches are invalid
    afterwards and neither the registers nor the status register change. *)
Theorem BEQZ_minus_two_jumps_forward :
  let p := beqz_backward in
  ID_EX_valid (ID_EX p) = true
  /\ ID_EX_instr (ID_EX p) = encode 4 1 (-2)
  /\ ID_EX_opcode (ID_EX p) = 4
  /\ ID_EX_pc (ID_EX p) = 5
  /\ rd (Register p) (ID_EX_rs (ID_EX p)) = 0
  /\ spec_sign_extend6 (ID_EX_instr (ID_EX p)) = -2
  /\ ID_EX_imm (ID_EX p) = 62
  /\ PC (execute p) = 68
  /\ PC (execute p) <> to_uint16 (5 + 1 + spec_sign_extend6 (ID_EX_instr (ID_EX p)))
  /\ IF_ID_valid (IF_ID (execute p)) = false
  /\ ID_EX_valid (ID_EX (execute p)) = false
  /\ Register (execute p) = Register p
  /\ SREG (execute p) = SREG p.
Proof. cbv zeta. split_and!; by_evaluation. Qed.

(** C5: when execute processes a valid BR, the program counter becomes the
    16-bit value with the source register's value as high byte and the
    second register's value as low byte (0x01 and 0x02 give 0x0102), both
    latches become invalid, and registers, status register and data store
    are left as they were. *)
Theorem BR_sets_PC_from_register_pair (p : Processor) :
  ID_EX_valid (ID_EX p) = true ->
  ID_EX_opcode (ID_EX p) = 7 ->
  byte (rd (Register p) (ID_EX_rs (ID_EX p))) ->
  byte (rd (Register p) (ID_EX_rt (ID_EX p))) ->
  let hi := rd (Register p) (ID_EX_rs (ID_EX p)) in
  let lo := rd (Register p) (ID_EX_rt (ID_EX p)) in
  let q := execute p in
  PC q = 256 * hi + lo
  /\ PC q / 256 = hi /\ PC q mod 256 = lo
  /\ (hi = 0x01 -> lo = 0x02 -> PC q = 0x0102)
  /\ IF_ID_valid (IF_ID q) = false /\ ID_EX_valid (ID_EX q) = false
  /\ Register q = Register p /\ SREG q = SREG p /\ data_mem q = data_mem p.
Proof.
  intros Hv Hop Hhi Hlo hi lo q.
  assert (PC q = 256 * hi + lo) as HPC.
  { subst q. rewrite execute_BR by done. cbn [PC set_ID_EX_valid set_IF_ID_valid
      set_ID_EX set_IF_ID set_PC]. by apply branch_target_bytes. }
  subst q. split_and!; try (rewrite execute_BR by done; reflexivity).
  - done.
  - rewrite HPC. unfold byte in *. subst hi lo.
    rewrite Z.mul_comm, Z.div_add_l, Z.div_small by lia. lia.
  - rewrite HPC. unfold byte in *. subst hi lo.
    rewrite Z.add_comm, Z.mul_comm, Z.mod_add by lia. apply Z.mod_small. lia.
  - intros H1 H2. rewrite HPC, H1, H2. reflexivity.
Qed.

Lemma BR_sets_PC_from_register_pair_witness :
  ID_EX_valid (ID_EX br_staged) = true
  /\ ID_EX_opcode (ID_EX br_staged) = 7
  /\ rd (Register br_staged) (ID_EX_rs (ID_EX br_staged)) = 0x01
  /\ rd (Register br_staged) (ID_EX_rt (ID_EX br_staged)) = 0x02
  /\ PC (execute br_staged) = 0x0102
  /\ IF_ID_valid (IF_ID (execute br_staged)) = false
  /\ ID_EX_valid (ID_EX (execute br_staged)) = false.
Proof.
  assert (ID_EX_valid (ID_EX br_staged) = true) as Hv by (vm_compute; reflexivity).
  assert (ID_EX_opcode (ID_EX br_staged) = 7) as Hop by (vm_compute; reflexivity).
  assert (rd (Register br_staged) (ID_EX_rs (ID_EX br_staged)) = 0x01) as Hhi
    by (vm_compute; reflexivity).
  assert (rd (Register br_staged) (ID_EX_rt (ID_EX br_staged)) = 0x02) as Hlo
    by (vm_compute; reflexivity).
  destruct (BR_sets_PC_from_register_pair br_staged Hv Hop
              ltac:(ground_byte) ltac:(ground_byte))
    as (_ & _ & _ & Hex & Hif & Hid & _).
  split_and!;
    [exact Hv | exact Hop | exact Hhi | exact Hlo | exact (Hex Hhi Hlo)
    | exact Hif | exact Hid].
Defined.

(** C6: fetch changes nothing when the program counter is at or beyond
    1024; below 1024 on the all-zero word it sets the program counter to
    1024 and leaves the fetch-decode latch alone; on any other word it
    latches the word with the current program counter, valid, and adds one
    to the program counter. *)
Theorem fetch_three_cases (p : Processor) :
  let instruction := rd (instr_mem p) (PC p) in
  (1024 <= PC p -> fetch p = p)
  /\ (PC p < 1024 -> instruction = 0 ->
      fetch p = set_PC 1024 p
      /\ PC (fetch p) = 1024 /\ IF_ID (fetch p) = IF_ID p)
  /\ (0 <= PC p < 1024 -> instruction <> 0 ->
      fetch p = set_PC (PC p + 1) (set_IF_ID (mkIF_ID instruction (PC p) true) p)
      /\ PC (fetch p) = PC p + 1
      /\ IF_ID (fetch p) = mkIF_ID instruction (PC p) true).
Proof.
  intros instruction. subst instruction. unfold fetch. split_and!.
  - intros H. apply Z.ltb_ge in H. by rewrite H.
  - intros H Hz. apply Z.ltb_lt in H. by rewrite H, Hz.
  - intros [H0 H] Hnz. apply Z.eqb_neq in Hnz.
    assert ((PC p <? 1024) = true) as -> by (apply Z.ltb_lt; lia).
    rewrite Hnz. cbn [PC set_IF_ID set_PC IF_ID].
    rewrite to_uint16_id by (unfold word16; lia). done.
Qed.

Lemma fetch_three_cases_witness :
  (1024 <= PC at_bound /\ fetch at_bound = at_bound)
  /\ (PC at_sentinel < 1024 /\ rd (instr_mem at_sentinel) (PC at_sentinel) = 0
      /\ PC (fetch at_sentinel) = 1024
      /\ IF_ID (fetch at_sentinel) = IF_ID at_sentinel)
  /\ (0 <= PC at_instruction < 1024
      /\ rd (instr_mem at_instruction) (PC at_instruction) <> 0
      /\ PC (fetch at_instruction) = PC at_instruction + 1
      /\ IF_ID (fetch at_instruction) = mkIF_ID 0x3045 0 true).
Proof.
  assert (1024 <= PC at_bound) as H1 by (vm_compute; discriminate).
  assert (PC at_sentinel < 1024) as H2 by (vm_compute; reflexivity).
  assert (rd (instr_mem at_sentinel) (PC at_sentinel) = 0) as H2z
    by (vm_compute; reflexivity).
  assert (0 <= PC at_instruction < 1024) as H3
    by (vm_compute; split; [discriminate | reflexivity]).
  assert (rd (instr_mem at_instruction) (PC at_instruction) <> 0) as H3n
    by (vm_compute; discriminate).
  destruct (fetch_three_cases at_bound) as (Hb & _ & _).
  destruct (fetch_three_cases at_sentinel) as (_ & Hs & _).
  destruct (fetch_three_cases at_instruction) as (_ & _ & Hi).
  destruct (Hs H2 H2z) as (_ & Hs1 & Hs2). destruct (Hi H3 H3n) as (_ & Hi1 & Hi2).
  refine (conj (conj H1 (Hb H1))
            (conj (conj H2 (conj H2z (conj Hs1 Hs2)))
                  (conj H3 (conj H3n (conj Hi1 _))))).
  etransitivity; [exact Hi2 | vm_compute; reflexivity].
Defined.

(** C7: at an address below 2048 a read after a write returns the written
    value, and at an address of 2048 or more the write leaves the processor
    as it was and the read returns 0.  Hence when execute processes an STR
    and then an LDR with the same immediate into a register other than
    register 0, that register ends up with the value the stored register
    held if the address is below 2048, and with 0 otherwise, the data store
    being untouched in the latter case. *)
Theorem data_store_round_trip (p : Processor) (E : ID_EX_Reg) (b W : Z) :
  length (data_mem p) = 2048%nat ->
  length (Register p) = 64%nat ->
  0 <= b ->
  ((b < 2048 -> mem_read_data (mem_write_data p b W) b = W)
   /\ (2048 <= b -> mem_write_data p b W = p /\ mem_read_data p b = 0))
  /\ (ID_EX_valid (ID_EX p) = true -> ID_EX_opcode (ID_EX p) = 11 ->
      ID_EX_valid E = true -> ID_EX_opcode E = 10 ->
      ID_EX_imm E = ID_EX_imm (ID_EX p) ->
      0 < ID_EX_rs E < 64 ->
      let a := to_uint16 (to_int8 (ID_EX_imm (ID_EX p))) in
      let V := rd (Register p) (ID_EX_rs (ID_EX p)) in
      let p1 := execute p in
      let p2 := execute (set_ID_EX E p1) in
      (a < 2048 -> rd (Register p2) (ID_EX_rs E) = V)
      /\ (2048 <= a ->
          data_mem p1 = data_mem p /\ rd (Register p2) (ID_EX_rs E) = 0)).
Proof.
  intros Hdl Hrl Hb. split.
  - split; [| apply mem_out_of_range].
    intros Hlt. apply mem_write_then_read; lia.
  - intros Hv Hop HvE HopE Himm Hrs a V p1 p2.
    pose proof (to_uint16_word16 (to_int8 (ID_EX_imm (ID_EX p)))) as [Ha0 _].
    fold a in Ha0.
    assert (p1 = set_ID_EX_valid false (mem_write_data p a V)) as Hp1
      by (subst p1 a V; by apply execute_STR).
    assert (Register p1 = Register p) as HR1.
    { rewrite Hp1. unfold mem_write_data. by destruct (2048 <=? a). }
    assert (rd (Register p2) (ID_EX_rs E)
            = mem_read_data (mem_write_data p a V) a) as Hp2.
    { subst p2. rewrite execute_LDR_Register by (done || (cbn; lia)).
      cbn [ID_EX set_ID_EX Register]. rewrite rd_wr_eq by (rewrite ?HR1; lia).
      rewrite Himm. fold a. rewrite Hp1.
      unfold mem_read_data, mem_write_data. by destruct (2048 <=? a). }
    split.
    + intros Hlt. rewrite Hp2. apply mem_write_then_read; lia.
    + intros Hge. destruct (mem_out_of_range p a V Hge) as [Hw Hr].
      split; [rewrite Hp1, Hw; done | by rewrite Hp2, Hw].
Qed.

Lemma data_store_round_trip_witness :
  (length (data_mem str_staged) = 2048%nat
   /\ ID_EX_opcode (ID_EX str_staged) = 11 /\ ID_EX_opcode ldr_latch = 10
   /\ to_uint16 (to_int8 (ID_EX_imm (ID_EX str_staged))) < 2048
   /\ mem_read_data (mem_write_data str_staged 10 7) 10 = 7
   /\ rd (Register (execute (set_ID_EX ldr_latch (execute str_staged)))) 2 = 7)
  /\ (2048 <= to_uint16 (to_int8 (ID_EX_imm (ID_EX str_far)))
      /\ mem_write_data str_far 5000 7 = str_far
      /\ mem_read_data str_far 5000 = 0
      /\ data_mem (execute str_far) = data_mem str_far
      /\ rd (Register (execute (set_ID_EX ldr_far (execute str_far)))) 2 = 0).
Proof.
  assert (length (data_mem str_staged) = 2048%nat) as Hd by (vm_compute; reflexivity).
  assert (length (Register str_staged) = 64%nat) as Hr by (vm_compute; reflexivity).
  assert (ID_EX_valid (ID_EX str_staged) = true) as Hv by (vm_compute; reflexivity).
  assert (ID_EX_opcode (ID_EX str_staged) = 11) as Hop by (vm_compute; reflexivity).
  assert (ID_EX_valid ldr_latch = true) as HvE by (vm_compute; reflexivity).
  assert (ID_EX_opcode ldr_latch = 10) as HopE by (vm_compute; reflexivity).
  assert (ID_EX_imm ldr_latch = ID_EX_imm (ID_EX str_staged)) as Hi
    by (vm_compute; reflexivity).
  assert (0 < ID_EX_rs ldr_latch < 64) as Hrs by (vm_compute; split; reflexivity).
  assert (to_uint16 (to_int8 (ID_EX_imm (ID_EX str_staged))) < 2048) as Ha
    by (vm_compute; reflexivity).
  assert (length (data_mem str_far) = 2048%nat) as Hd' by (vm_compute; reflexivity).
  assert (length (Register str_far) = 64%nat) as Hr' by (vm_compute; reflexivity).
  assert (ID_EX_valid (ID_EX str_far) = true) as Hv' by (vm_compute; reflexivity).
  assert (ID_EX_opcode (ID_EX str_far) = 11) as Hop' by (vm_compute; reflexivity).
  assert (ID_EX_valid ldr_far = true) as HvE' by (vm_compute; reflexivity).
  assert (ID_EX_opcode ldr_far = 10) as HopE' by (vm_compute; reflexivity).
  assert (ID_EX_imm ldr_far = ID_EX_imm (ID_EX str_far)) as Hi'
    by (vm_compute; reflexivity).
  assert (0 < ID_EX_rs ldr_far < 64) as Hrs' by (vm_compute; split; reflexivity).
  assert (2048 <= to_uint16 (to_int8 (ID_EX_imm (ID_EX str_far)))) as Hfar
    by (vm_compute; discriminate).
  destruct (data_store_round_trip str_staged ldr_latch 10 7 Hd Hr ltac:(lia))
    as [[Hf _] He].
  destruct (He Hv Hop HvE HopE Hi Hrs) as [He1 _].
  destruct (data_store_round_trip str_far ldr_far 5000 7 Hd' Hr' ltac:(lia))
    as [[_ Hg] Hx].
  destruct (Hg ltac:(lia)) as [Hg1 Hg2].
  destruct (Hx Hv' Hop' HvE' HopE' Hi' Hrs') as [_ Hx2].
  destruct (Hx2 Hfar) as [Hx3 Hx4].
  refine (conj (conj Hd (conj Hop (conj HopE (conj Ha (conj (Hf ltac:(lia)) _)))))
               (conj Hfar (conj Hg1 (conj Hg2 (conj Hx3 Hx4))))).
  etransitivity; [exact (He1 Ha) | vm_compute; reflexivity].
Defined.

(** C8: ADD and SUB write the sum or difference modulo 256 into the source
    register, and Carry is bit 8 of the widened sum, or of the widened
    difference of the operands taken as signed bytes.  5 + 3 gives 8 with
    C, V, N and Z clear; 200 + 100 gives 44 with C set; 3 - 5 gives 254 with
    N set and Z clear. *)
Theorem ADD_SUB_wrap_and_carry (p : Processor) :
  ID_EX_valid (ID_EX p) = true ->
  0 < ID_EX_rs (ID_EX p) ->
  (Z.to_nat (ID_EX_rs (ID_EX p)) < length (Register p))%nat ->
  let v1 := ID_EX_valueRS (ID_EX p) in
  let v2 := ID_EX_valueRT (ID_EX p) in
  let q := execute p in
  let written := rd (Register q) (ID_EX_rs (ID_EX p)) in
  (ID_EX_opcode (ID_EX p) = 0 ->
   written = (v1 + v2) mod 256
   /\ flag FLAG_C q = Z.testbit (v1 + v2) 8
   /\ (v1 = 5 -> v2 = 3 ->
       written = 8 /\ flag FLAG_C q = false /\ flag FLAG_V q = false
       /\ flag FLAG_N q = false /\ flag FLAG_Z q = false)
   /\ (v1 = 200 -> v2 = 100 -> written = 44 /\ flag FLAG_C q = true))
  /\ (ID_EX_opcode (ID_EX p) = 1 ->
      written = (v1 - v2) mod 256
      /\ flag FLAG_C q = Z.testbit (to_int8 v1 - to_int8 v2) 8
      /\ (v1 = 3 -> v2 = 5 ->
          written = 254 /\ flag FLAG_N q = true /\ flag FLAG_Z q = false)).
Proof.
  intros Hv Hrs Hlen v1 v2 q written. split; intros Hop.
  - assert (writes_back (ID_EX_opcode (ID_EX p)) = true) as Hwb by (by rewrite Hop).
    assert (switch_result p = to_uint8 (v1 + v2)) as Hres.
    { unfold switch_result, execute_switch. by rewrite Hop. }
    assert (operand2 p = v2) as Hop2 by (unfold operand2; by rewrite Hop).
    assert (written = (v1 + v2) mod 256) as Hw.
    { subst written q. by rewrite execute_result_register, Hres. }
    pose proof (update_flags_flags p (switch_result p) v1 v2 0)
      as (HZ & HN & HC & HV & _).
    assert (forall f, flag f q
              = flag f (update_flags p (switch_result p) v1 v2 0)) as Hfl.
    { intros f. subst q. rewrite execute_flag by done. by rewrite Hop2, Hop. }
    rewrite !Hfl, HZ, HN, HC, HV, Hw, Hres. clear Hfl HZ HN HC HV.
    split_and!; [done | by rewrite carry_out_bit8 | |].
    + intros -> ->. by vm_compute.
    + intros -> ->. by vm_compute.
  - assert (writes_back (ID_EX_opcode (ID_EX p)) = true) as Hwb by (by rewrite Hop).
    assert (switch_result p = to_uint8 (v1 - v2)) as Hres.
    { unfold switch_result, execute_switch. by rewrite Hop. }
    assert (operand2 p = v2) as Hop2 by (unfold operand2; by rewrite Hop).
    assert (written = (v1 - v2) mod 256) as Hw.
    { subst written q. by rewrite execute_result_register, Hres. }
    pose proof (update_flags_flags p (switch_result p) v1 v2 1)
      as (HZ & HN & HC & HV & _).
    assert (forall f, flag f q
              = flag f (update_flags p (switch_result p) v1 v2 1)) as Hfl.
    { intros f. subst q. rewrite execute_flag by done. by rewrite Hop2, Hop. }
    rewrite !Hfl, HZ, HN, HC, Hw, Hres. clear Hfl HZ HN HC HV.
    split_and!; [done | by rewrite carry_out_bit8 |].
    intros -> ->. by vm_compute.
Qed.

Lemma ADD_SUB_wrap_and_carry_witness :
  (ID_EX_opcode (ID_EX add_5_3) = 0
   /\ ID_EX_valueRS (ID_EX add_5_3) = 5 /\ ID_EX_valueRT (ID_EX add_5_3) = 3
   /\ rd (Register (execute add_5_3)) (ID_EX_rs (ID_EX add_5_3)) = 8
   /\ flag FLAG_C (execute add_5_3) = false /\ flag FLAG_V (execute add_5_3) = false
   /\ flag FLAG_N (execute add_5_3) = false /\ flag FLAG_Z (execute add_5_3) = false)
  /\ (ID_EX_opcode (ID_EX add_200_100) = 0
      /\ ID_EX_valueRS (ID_EX add_200_100) = 200
      /\ ID_EX_valueRT (ID_EX add_200_100) = 100
      /\ rd (Register (execute add_200_100)) (ID_EX_rs (ID_EX add_200_100)) = 44
      /\ flag FLAG_C (execute add_200_100) = true)
  /\ (ID_EX_opcode (ID_EX sub_3_5) = 1
      /\ ID_EX_valueRS (ID_EX sub_3_5) = 3 /\ ID_EX_valueRT (ID_EX sub_3_5) = 5
      /\ rd (Register (execute sub_3_5)) (ID_EX_rs (ID_EX sub_3_5)) = 254
      /\ flag FLAG_N (execute sub_3_5) = true
      /\ flag FLAG_Z (execute sub_3_5) = false).
Proof.
  assert (ID_EX_valid (ID_EX add_5_3) = true) as Hv1 by by_evaluation.
  assert (0 < ID_EX_rs (ID_EX add_5_3)) as Hr1 by by_evaluation.
  assert (Z.to_nat (ID_EX_rs (ID_EX add_5_3)) < length (Register add_5_3))%nat
    as Hl1 by (vm_compute; lia).
  assert (ID_EX_opcode (ID_EX add_5_3) = 0) as Ho1 by by_evaluation.
  assert (ID_EX_valueRS (ID_EX add_5_3) = 5) as Ha1 by by_evaluation.
  assert (ID_EX_valueRT (ID_EX add_5_3) = 3) as Hb1 by by_evaluation.
  assert (ID_EX_valid (ID_EX add_200_100) = true) as Hv2 by by_evaluation.
  assert (0 < ID_EX_rs (ID_EX add_200_100)) as Hr2 by by_evaluation.
  assert (Z.to_nat (ID_EX_rs (ID_EX add_200_100)) < length (Register add_200_100))%nat
    as Hl2 by (vm_compute; lia).
  assert (ID_EX_opcode (ID_EX add_200_100) = 0) as Ho2 by by_evaluation.
  assert (ID_EX_valueRS (ID_EX add_200_100) = 200) as Ha2 by by_evaluation.
  assert (ID_EX_valueRT (ID_EX add_200_100) = 100) as Hb2 by by_evaluation.
  assert (ID_EX_valid (ID_EX sub_3_5) = true) as Hv3 by by_evaluation.
  assert (0 < ID_EX_rs (ID_EX sub_3_5)) as Hr3 by by_evaluation.
  assert (Z.to_nat (ID_EX_rs (ID_EX sub_3_5)) < length (Register sub_3_5))%nat
    as Hl3 by (vm_compute; lia).
  assert (ID_EX_opcode (ID_EX sub_3_5) = 1) as Ho3 by by_evaluation.
  assert (ID_EX_valueRS (ID_EX sub_3_5) = 3) as Ha3 by by_evaluation.
  assert (ID_EX_valueRT (ID_EX sub_3_5) = 5) as Hb3 by by_evaluation.
  destruct (ADD_SUB_wrap_and_carry add_5_3 Hv1 Hr1 Hl1) as [Hadd1 _].
  destruct (Hadd1 Ho1) as (_ & _ & H53 & _).
  destruct (ADD_SUB_wrap_and_carry add_200_100 Hv2 Hr2 Hl2) as [Hadd2 _].
  destruct (Hadd2 Ho2) as (_ & _ & _ & H200).
  destruct (ADD_SUB_wrap_and_carry sub_3_5 Hv3 Hr3 Hl3) as [_ Hsub].
  destruct (Hsub Ho3) as (_ & _ & H35).
  exact (conj (conj Ho1 (conj Ha1 (conj Hb1 (H53 Ha1 Hb1))))
              (conj (conj Ho2 (conj Ha2 (conj Hb2 (H200 Ha2 Hb2))))
                    (conj Ho3 (conj Ha3 (conj Hb3 (H35 Ha3 Hb3)))))).
Defined.

(** C9: on every well-formed state, whatever instruction the latch holds,
    one cycle leaves the cell of register 0 as it was; so do [n] cycles; and
    from start-up, under any program, register 0 holds 0 after any number
    of cycles. *)
Theorem register_zero_never_written (p : Processor) (n : nat) :
  wf p ->
  Register (process_cycle p) !! 0%nat = Register p !! 0%nat
  /\ Register (run n p) !! 0%nat = Register p !! 0%nat
  /\ (forall prog, Register (run n (boot prog)) !! 0%nat = Some 0).
Proof.
  assert (forall q, wf q -> Register (process_cycle q) !! 0%nat = Register q !! 0%nat)
    as Hstep.
  { intros q [_ HL]. rewrite process_cycle_Register, execute_Register.
    destruct (ID_EX_valid (ID_EX q)) eqn:Hv; [| done].
    destruct (writes_back _); [| done].
    destruct (Z.eqb_spec (ID_EX_rs (ID_EX q)) 0) as [| Hne]; [done |].
    cbn [andb negb]. unfold wr. apply list_lookup_insert_ne.
    destruct (latch_ok_ranges q (HL eq_refl)) as (_ & Hrs & _). lia. }
  assert (forall q, wf q -> Register (run n q) !! 0%nat = Register q !! 0%nat)
    as Hrun.
  { intros q Hq. induction n as [| m IH]; [done |].
    change (run (S m) q) with (process_cycle (run m q)).
    rewrite Hstep by (by apply wf_run). done. }
  intros Hp. split_and!; [by apply Hstep | by apply Hrun |].
  intros prog. rewrite Hrun by apply wf_boot.
  clear. unfold boot, mem_load_program.
  assert (forall ws addr q, Register (store_program ws addr q) = Register q) as Hst.
  { induction ws as [| [[o r] v] ws IH]; intros addr q; simpl; [done |].
    destruct (addr <? 1024); [by rewrite IH | done]. }
  by rewrite Hst.
Qed.

Lemma register_zero_never_written_witness :
  wf movi_r0_staged
  /\ Register (process_cycle movi_r0_staged) !! 0%nat = Register movi_r0_staged !! 0%nat
  /\ Register (run 3 movi_r0_staged) !! 0%nat = Register movi_r0_staged !! 0%nat
  /\ (forall prog, Register (run 3 (boot prog)) !! 0%nat = Some 0).
Proof.
  assert (wf movi_r0_staged) as Hwf by compute_done.
  exact (conj Hwf (register_zero_never_written movi_r0_staged 3 Hwf)).
Defined.

(** C10: the target of a valid BR is computed from the register file as it
    is when execute runs.  The operand values latched at decode time play
    no part: replacing them changes nothing, and after a write to any
    register [k] made once the branch is in the latch, the written value is
    the one that enters the program counter. *)
Theorem BR_reads_live_registers (p : Processor) (k v : Z) :
  ID_EX_valid (ID_EX p) = true ->
  ID_EX_opcode (ID_EX p) = 7 ->
  let target (q : Processor) :=
    to_uint16 (Z.lor (Z.shiftl (to_uint16 (rd (Register q) (ID_EX_rs (ID_EX p)))) 8)
                     (rd (Register q) (ID_EX_rt (ID_EX p)))) in
  PC (execute p) = target p
  /\ PC (execute (set_Register (wr (Register p) k v) p))
     = target (set_Register (wr (Register p) k v) p)
  /\ (forall vs vt, PC (execute (set_snapshot vs vt p)) = PC (execute p)).
Proof.
  intros Hv Hop target. split_and!.
  - by rewrite execute_BR.
  - by rewrite execute_BR.
  - intros vs vt. by rewrite !execute_BR.
Qed.

Lemma BR_reads_live_registers_witness :
  ID_EX_valid (ID_EX br_staged) = true
  /\ ID_EX_opcode (ID_EX br_staged) = 7
  /\ ID_EX_valueRS (ID_EX br_staged_stale) = 1
  /\ rd (Register br_staged_stale) (ID_EX_rs (ID_EX br_staged_stale)) = 9
  /\ PC (execute br_staged_stale) = 0x0902.
Proof.
  assert (ID_EX_valid (ID_EX br_staged) = true) as Hv by (vm_compute; reflexivity).
  assert (ID_EX_opcode (ID_EX br_staged) = 7) as Hop by (vm_compute; reflexivity).
  destruct (BR_reads_live_registers br_staged 1 9 Hv Hop) as (_ & Hw & _).
  split_and!;
    [exact Hv | exact Hop | vm_compute; reflexivity | vm_compute; reflexivity |].
  etransitivity; [exact Hw | vm_compute; reflexivity].
Defined.

(** * Further properties of the code *)

(** ** Instruction words: the loader's packing and [decode] *)

Lemma low_bits_above b k n : 0 <= b < 2 ^ k -> 0 <= k <= n -> Z.testbit b n = false.
Proof.
  intros [Hb0 Hb] Hk. destruct (Z.eq_dec b 0) as [-> | Hne]; [apply Z.bits_0 |].
  apply Z.bits_above_log2; [done |].
  assert (Z.log2 b < k) by (apply Z.log2_lt_pow2; lia). lia.
Qed.

Lemma lor_shiftl_low x k b :
  0 <= b < 2 ^ k -> 0 <= k -> Z.lor (Z.shiftl x k) b = x * 2 ^ k + b.
Proof.
  intros Hb Hk.
  assert (Z.land (Z.shiftl x k) b = 0) as Hdisj.
  { apply Z.bits_inj'. intros n Hn. rewrite Z.land_spec, Z.bits_0.
    destruct (Z.lt_ge_cases n k).
    - by rewrite Z.shiftl_spec_low.
    - rewrite (low_bits_above b k n) by lia. apply andb_false_r. }
  pose proof (Z.add_lor_land (Z.shiftl x k) b) as Hadd.
  rewrite Hdisj in Hadd. rewrite Z.shiftl_mul_pow2 in Hadd |- * by lia. lia.
Qed.

Lemma land_0x3F_uint8 x : Z.land (to_uint8 x) 0x3F = x mod 64.
Proof.
  change 0x3F with (Z.ones 6). rewrite Z.land_ones by lia. unfold to_uint8.
  change (2 ^ 6) with 64. apply Z.mod_mod_divide. exists 4. lia.
Qed.

(** The loader's word is the three fields laid side by side. *)
Lemma encode_value opcode r1 operand :
  0 <= opcode < 16 ->
  encode opcode r1 operand = opcode * 4096 + (r1 mod 64) * 64 + operand mod 64.
Proof.
  intros Hop. unfold encode. rewrite !land_0x3F_uint8.
  pose proof (Z.mod_pos_bound r1 64 ltac:(lia)) as Hr.
  pose proof (Z.mod_pos_bound operand 64 ltac:(lia)) as Hv.
  replace (Z.shiftl opcode 12) with (Z.shiftl (Z.shiftl opcode 6) 6)
    by (rewrite Z.shiftl_shiftl by lia; reflexivity).
  rewrite <- Z.shiftl_lor.
  rewrite (lor_shiftl_low opcode 6) by (change (2 ^ 6) with 64; lia).
  rewrite lor_shiftl_low by (change (2 ^ 6) with 64; lia).
  change (2 ^ 6) with 64. rewrite to_uint16_id by (unfold word16; lia). lia.
Qed.

Lemma encode_fields opcode r1 operand :
  0 <= opcode < 16 ->
  let w := encode opcode r1 operand in
  Z.land (Z.shiftr w 12) 0x0F = opcode
  /\ Z.land (Z.shiftr w 6) 0x3F = r1 mod 64
  /\ Z.land w 0x3F = operand mod 64.
Proof.
  intros Hop w. subst w. rewrite encode_value by done.
  pose proof (Z.mod_pos_bound r1 64 ltac:(lia)) as Hr.
  pose proof (Z.mod_pos_bound operand 64 ltac:(lia)) as Hv.
  set (a := r1 mod 64) in *. set (b := operand mod 64) in *.
  change 0x0F with (Z.ones 4). change 0x3F with (Z.ones 6).
  rewrite !Z.land_ones, !Z.shiftr_div_pow2 by lia.
  change (2 ^ 12) with 4096. change (2 ^ 6) with 64. change (2 ^ 4) with 16.
  assert ((opcode * 4096 + a * 64 + b) / 4096 = opcode) as ->
    by (symmetry; apply (Z.div_unique_pos _ _ _ (a * 64 + b)); lia).
  assert ((opcode * 4096 + a * 64 + b) / 64 = opcode * 64 + a) as ->
    by (symmetry; apply (Z.div_unique_pos _ _ _ b); lia).
  split_and!.
  - apply Z.mod_small. lia.
  - symmetry. apply (Z.mod_unique_pos _ _ opcode); lia.
  - symmetry. apply (Z.mod_unique_pos _ _ (opcode * 64 + a)); lia.
Qed.

(** X1: a word packed by the loader from a code between 0 and 15, a register
    number and an operand is taken apart by [decode] into that code, the
    register number modulo 64 and the operand modulo 64; the operand lands
    in the immediate for the seven immediate-form codes and in the second
    register index for the others, the other of the two being 0.  The
    fetch-decode latch is consumed. *)
Theorem decode_recovers_loaded_fields (p : Processor) (opcode r1 operand pc : Z) :
  0 <= opcode < 16 ->
  let q := decode (set_IF_ID (mkIF_ID (encode opcode r1 operand) pc true) p) in
  ID_EX_valid (ID_EX q) = true
  /\ ID_EX_instr (ID_EX q) = encode opcode r1 operand
  /\ ID_EX_pc (ID_EX q) = pc
  /\ ID_EX_opcode (ID_EX q) = opcode
  /\ ID_EX_rs (ID_EX q) = r1 mod 64
  /\ ID_EX_rt (ID_EX q) = (if imm_class opcode then 0 else operand mod 64)
  /\ ID_EX_imm (ID_EX q) = (if imm_class opcode then operand mod 64 else 0)
  /\ IF_ID_valid (IF_ID q) = false.
Proof.
  intros Hop q.
  set (s := set_IF_ID (mkIF_ID (encode opcode r1 operand) pc true) p) in *.
  assert (IF_ID_valid (IF_ID s) = true) as Hv by reflexivity.
  pose proof (decode_latch_ok s Hv) as (Ho & Hs & Ht & Hi & _). fold q in Ho, Hs, Ht, Hi.
  assert (ID_EX_instr (ID_EX q) = encode opcode r1 operand) as Hw by reflexivity.
  destruct (encode_fields opcode r1 operand Hop) as (Ef & Er & El).
  rewrite Hw in Ho, Hs, Ht, Hi. rewrite Ef in Ho. rewrite Er in Hs.
  rewrite El, Ho in Ht, Hi. split_and!; done.
Qed.

Lemma decode_recovers_loaded_fields_witness :
  let q := decode (set_IF_ID (mkIF_ID (encode 4 1 (-2)) 5 true) proc_init) in
  ID_EX_opcode (ID_EX q) = 4 /\ ID_EX_rs (ID_EX q) = 1
  /\ ID_EX_rt (ID_EX q) = 0 /\ ID_EX_imm (ID_EX q) = 62.
Proof.
  destruct (decode_recovers_loaded_fields proc_init 4 1 (-2) 5 ltac:(lia))
    as (_ & _ & _ & Ho & Hs & Ht & Hi & _).
  cbv zeta. split_and!; [exact Ho | exact Hs | exact Ht | exact Hi].
Defined.

(** ** The instruction store after loading *)

Lemma store_program_frame prog : forall addr p,
  Register (store_program prog addr p) = Register p
  /\ SREG (store_program prog addr p) = SREG p
  /\ PC (store_program prog addr p) = PC p
  /\ data_mem (store_program prog addr p) = data_mem p
  /\ IF_ID (store_program prog addr p) = IF_ID p
  /\ ID_EX (store_program prog addr p) = ID_EX p
  /\ EX_valid (store_program prog addr p) = EX_valid p.
Proof.
  induction prog as [| [[o r] v] rest IH]; intros addr p; simpl; [done |].
  destruct (addr <? 1024); [| done].
  destruct (IH (to_uint16 (addr + 1))
              (set_instr_mem (wr (instr_mem p) addr (encode o r v)) p))
    as (-> & -> & -> & -> & -> & -> & ->). done.
Qed.

Lemma store_program_lookup prog : forall addr p j,
  0 <= addr -> 0 <= j -> length (instr_mem p) = 1024%nat ->
  rd (instr_mem (store_program prog addr p)) j
  = match prog !! Z.to_nat (j - addr) with
    | Some (opcode, r1, operand) =>
        if (addr <=? j) && (j <? 1024) then encode opcode r1 operand
        else rd (instr_mem p) j
    | None => rd (instr_mem p) j
    end.
Proof.
  induction prog as [| [[o r] v] rest IH]; intros addr p j Ha Hj Hlen; simpl.
  - done.
  - destruct (Z.ltb_spec addr 1024) as [Hlt | Hge].
    + rewrite IH; [| apply to_uint16_word16 | done
                   | cbn [instr_mem set_instr_mem]; unfold wr;
                     by rewrite length_insert].
      rewrite (to_uint16_id (addr + 1)) by (unfold word16; lia).
      cbn [instr_mem set_instr_mem].
      destruct (Z.lt_trichotomy j addr) as [Hja | [-> | Hja]].
      * replace (Z.to_nat (j - (addr + 1))) with 0%nat by lia.
        replace (Z.to_nat (j - addr)) with 0%nat by lia. simpl.
        assert ((addr <=? j) = false) as -> by (apply Z.leb_gt; lia).
        assert ((addr + 1 <=? j) = false) as -> by (apply Z.leb_gt; lia).
        cbn [andb]. rewrite rd_wr_ne by lia.
        by destruct rest as [| [[? ?] ?] ?].
      * replace (Z.to_nat (addr - (addr + 1))) with 0%nat by lia.
        replace (Z.to_nat (addr - addr)) with 0%nat by lia. simpl.
        assert ((addr <=? addr) = true) as -> by (apply Z.leb_le; lia).
        assert ((addr + 1 <=? addr) = false) as -> by (apply Z.leb_gt; lia).
        assert ((addr <? 1024) = true) as -> by (apply Z.ltb_lt; lia).
        cbn [andb]. rewrite rd_wr_eq by lia.
        by destruct rest as [| [[? ?] ?] ?].
      * replace (Z.to_nat (j - addr)) with (S (Z.to_nat (j - (addr + 1)))) by lia.
        simpl. destruct (rest !! Z.to_nat (j - (addr + 1))) as [[[o' r'] v'] |].
        -- assert ((addr <=? j) = true) as -> by (apply Z.leb_le; lia).
           assert ((addr + 1 <=? j) = true) as -> by (apply Z.leb_le; lia).
           cbn [andb]. destruct (j <? 1024); [done |]. apply rd_wr_ne; lia.
        -- apply rd_wr_ne; lia.
    + destruct (Z.to_nat (j - addr)) as [| k]; simpl.
      * assert ((j <? 1024) = false \/ (addr <=? j) = false) as [-> | ->].
        { destruct (Z.leb_spec addr j); [left; apply Z.ltb_ge; lia | by right]. }
        -- by rewrite andb_false_r.
        -- done.
      * destruct (rest !! k) as [[[o' r'] v'] |]; [| done].
        assert ((j <? 1024) = false \/ (addr <=? j) = false) as [-> | ->].
        { destruct (Z.leb_spec addr j); [left; apply Z.ltb_ge; lia | by right]. }
        -- by rewrite andb_false_r.
        -- done.
Qed.

Lemma rd_replicate_0 n j : rd (replicate n 0) j = 0.
Proof.
  unfold rd. destruct (replicate n 0 !! Z.to_nat j) as [x |] eqn:E; [| done].
  apply lookup_replicate in E as [-> _]. done.
Qed.

(** X2: after start-up the word at address [j] of the instruction store
    is the packed [j]-th line of the program when there is one and [j] is
    below 1024, and 0 otherwise; the store has 1024 words whatever the
    length of the program, and everything else is zero or invalid. *)
Theorem loaded_program_layout (prog : list (Z * Z * Z)) (j : Z) :
  0 <= j ->
  rd (instr_mem (boot prog)) j
  = match prog !! Z.to_nat j with
    | Some (opcode, r1, operand) =>
        if j <? 1024 then encode opcode r1 operand else 0
    | None => 0
    end
  /\ length (instr_mem (boot prog)) = 1024%nat
  /\ Register (boot prog) = replicate 64 0
  /\ data_mem (boot prog) = replicate 2048 0
  /\ PC (boot prog) = 0 /\ SREG (boot prog) = 0
  /\ IF_ID_valid (IF_ID (boot prog)) = false
  /\ ID_EX_valid (ID_EX (boot prog)) = false
  /\ EX_valid (boot prog) = false.
Proof.
  intros Hj. unfold boot, mem_load_program.
  destruct (store_program_frame prog 0 (mem_init proc_init))
    as (-> & -> & -> & -> & -> & -> & ->).
  split_and!; try reflexivity.
  - rewrite store_program_lookup by (done || reflexivity).
    rewrite Z.sub_0_r.
    assert ((0 <=? j) = true) as -> by (apply Z.leb_le; lia). cbn [andb].
    assert (rd (instr_mem (mem_init proc_init)) j = 0) as ->
      by apply rd_replicate_0.
    done.
  - destruct (wf_boot prog) as [(_ & _ & _ & _ & H & _) _]. exact H.
Qed.

Lemma loaded_program_layout_witness :
  rd (instr_mem (boot [(3, 1, 5); (11, 1, 10)])) 1 = encode 11 1 10
  /\ length (instr_mem (boot [(3, 1, 5); (11, 1, 10)])) = 1024%nat.
Proof.
  destruct (loaded_program_layout [(3, 1, 5); (11, 1, 10)] 1 ltac:(lia))
    as (H & Hl & _).
  split; [| exact Hl]. etransitivity; [exact H | by_evaluation].
Defined.

(** ** What a cycle leaves alone *)

Lemma execute_instr_mem p : instr_mem (execute p) = instr_mem p.
Proof.
  destruct (ID_EX_valid (ID_EX p)) eqn:Hv; [| by rewrite execute_invalid].
  destruct (opcode_cases (ID_EX_opcode (ID_EX p))) as [H | [H | [H | [H | H]]]].
  - rewrite execute_writes_back by done. by destruct (negb _).
  - destruct (Z.eq_dec (rd (Register p) (ID_EX_rs (ID_EX p))) 0).
    + by rewrite execute_BEQZ_taken.
    + by rewrite execute_BEQZ_not_taken.
  - by rewrite execute_BR.
  - rewrite execute_STR by done. unfold mem_write_data. by destruct (2048 <=? _).
  - by rewrite execute_no_case.
Qed.

Lemma process_cycle_instr_mem p : instr_mem (process_cycle p) = instr_mem p.
Proof.
  unfold process_cycle. fold (snapshot p).
  set (d := decode (execute (snapshot p))).
  assert (instr_mem d = instr_mem p) as Hd.
  { subst d. destruct (decode_frame (execute (snapshot p))) as (_ & _ & _ & _ & ->).
    by rewrite execute_instr_mem. }
  destruct (PC d <? 1024); [| done].
  destruct (fetch_frame d) as (_ & _ & _ & -> & _). done.
Qed.

Lemma process_cycle_instr_mem_run n p : instr_mem (run n p) = instr_mem p.
Proof.
  induction n as [| n IH]; [done |].
  change (run (S n) p) with (process_cycle (run n p)).
  by rewrite process_cycle_instr_mem.
Qed.

(** X3: the instruction store is never written once the simulation runs:
    after any number of cycles from any state it is what it was. *)
Theorem instruction_store_is_read_only (p : Processor) (n : nat) :
  instr_mem (run n p) = instr_mem p.
Proof. apply process_cycle_instr_mem_run. Qed.

(** The data store after [execute]: one cell is written, and only by a
    valid STR whose address is below 2048. *)
Lemma execute_data_mem p :
  data_mem (execute p)
  = if ID_EX_valid (ID_EX p) && (ID_EX_opcode (ID_EX p) =? 11)
       && (latched_address p <? 2048)
    then wr (data_mem p) (latched_address p) (rd (Register p) (ID_EX_rs (ID_EX p)))
    else data_mem p.
Proof.
  destruct (ID_EX_valid (ID_EX p)) eqn:Hv; [| by rewrite execute_invalid].
  destruct (opcode_cases (ID_EX_opcode (ID_EX p))) as [H | [H | [H | [H | H]]]].
  - rewrite execute_writes_back by done.
    assert ((ID_EX_opcode (ID_EX p) =? 11) = false) as ->.
    { unfold writes_back in H. bool_to_Z; by rewrite H. }
    by destruct (negb _).
  - rewrite H. destruct (Z.eq_dec (rd (Register p) (ID_EX_rs (ID_EX p))) 0).
    + by rewrite execute_BEQZ_taken.
    + by rewrite execute_BEQZ_not_taken.
  - rewrite execute_BR, H by done. done.
  - rewrite execute_STR, H by done. unfold mem_write_data, latched_address.
    rewrite Z.ltb_antisym. by destruct (2048 <=? _).
  - rewrite execute_no_case by done.
    unfold has_case in H. apply orb_false_iff in H as [_ H].
    by rewrite H.
Qed.

Lemma process_cycle_data_mem p : data_mem (process_cycle p) = data_mem (execute p).
Proof.
  unfold process_cycle. fold (snapshot p).
  set (d := decode (execute (snapshot p))).
  assert (data_mem d = data_mem (execute (snapshot p))) as Hd
    by (subst d; apply decode_frame).
  assert (data_mem (if PC d <? 1024 then fetch d else d) = data_mem d) as ->.
  { destruct (PC d <? 1024); [| done]. apply fetch_frame. }
  rewrite Hd, !execute_data_mem. done.
Qed.

(** X4: in one cycle the data store changes in at most one cell, and only
    when the decode-execute latch holds a valid STR whose address is below
    2048: that cell then receives the current value of the source register.
    No other instruction, and neither decode nor fetch, writes the data
    store. *)
Theorem data_store_written_only_by_STR (p : Processor) :
  data_mem (process_cycle p)
  = if ID_EX_valid (ID_EX p) && (ID_EX_opcode (ID_EX p) =? 11)
       && (latched_address p <? 2048)
    then wr (data_mem p) (latched_address p) (rd (Register p) (ID_EX_rs (ID_EX p)))
    else data_mem p.
Proof. by rewrite process_cycle_data_mem, execute_data_mem. Qed.

(** X5: a cycle writes no register other than the source register named in
    the decode-execute latch, and never changes the size of the register
    file. *)
Theorem only_source_register_written (p : Processor) (j : Z) :
  0 <= ID_EX_rs (ID_EX p) ->
  0 <= j ->
  j <> ID_EX_rs (ID_EX p) ->
  rd (Register (process_cycle p)) j = rd (Register p) j
  /\ length (Register (process_cycle p)) = length (Register p).
Proof.
  intros Hrs Hj Hne. rewrite process_cycle_Register, execute_Register.
  destruct (_ && _ && _); [| done].
  split; [apply rd_wr_ne; lia | unfold wr; apply length_insert].
Qed.

Lemma only_source_register_written_witness :
  rd (Register add_5_3) 1 = 5
  /\ rd (Register (process_cycle add_5_3)) 1 = 8
  /\ rd (Register (process_cycle add_5_3)) 2 = rd (Register add_5_3) 2.
Proof.
  assert (0 <= ID_EX_rs (ID_EX add_5_3)) as Hrs by by_evaluation.
  assert (2 <> ID_EX_rs (ID_EX add_5_3)) as Hne by by_evaluation.
  destruct (only_source_register_written add_5_3 2 Hrs ltac:(lia) Hne) as [H _].
  split_and!; [by_evaluation | by_evaluation | exact H].
Defined.

(** ** Cycles in which no branch is taken *)

Lemma execute_not_taken p :
  branch_taken p = false ->
  PC (execute p) = PC p /\ IF_ID (execute p) = IF_ID p.
Proof.
  unfold branch_taken. intros Hbr.
  destruct (ID_EX_valid (ID_EX p)) eqn:Hv; [| by rewrite execute_invalid].
  cbn [andb] in Hbr. apply orb_false_iff in Hbr as [H7 H4].
  apply Z.eqb_neq in H7.
  destruct (opcode_cases (ID_EX_opcode (ID_EX p))) as [H | [H | [H | [H | H]]]].
  - rewrite execute_writes_back by done. by destruct (negb _).
  - rewrite H in H4. cbn [Z.eqb Pos.eqb andb] in H4. apply Z.eqb_neq in H4.
    by rewrite execute_BEQZ_not_taken.
  - done.
  - rewrite execute_STR by done. unfold mem_write_data. by destruct (2048 <=? _).
  - by rewrite execute_no_case.
Qed.

Lemma decode_valid p :
  IF_ID_valid (IF_ID p) = true ->
  IF_ID_valid (IF_ID (decode p)) = false
  /\ ID_EX_valid (ID_EX (decode p)) = true
  /\ ID_EX_instr (ID_EX (decode p)) = IF_ID_instr (IF_ID p)
  /\ ID_EX_pc (ID_EX (decode p)) = IF_ID_pc (IF_ID p).
Proof. intros H. unfold decode. by rewrite H. Qed.

Lemma fetch_latch_ok p : latch_ok p -> latch_ok (fetch p).
Proof.
  unfold latch_ok. destruct (fetch_frame p) as (-> & _ & _ & _ & ->). done.
Qed.

(** One cycle without a taken branch, stage by stage. *)
Lemma process_cycle_not_taken p :
  branch_taken p = false ->
  let fetched := (PC p <? 1024) && negb (rd (instr_mem p) (PC p) =? 0) in
  EX_valid (process_cycle p) = ID_EX_valid (ID_EX p)
  /\ ID_EX_valid (ID_EX (process_cycle p)) = IF_ID_valid (IF_ID p)
  /\ IF_ID_valid (IF_ID (process_cycle p)) = fetched
  /\ PC (process_cycle p)
     = (if PC p <? 1024
        then if rd (instr_mem p) (PC p) =? 0 then 1024 else to_uint16 (PC p + 1)
        else PC p)
  /\ (IF_ID_valid (IF_ID p) = true ->
      ID_EX_instr (ID_EX (process_cycle p)) = IF_ID_instr (IF_ID p)
      /\ ID_EX_pc (ID_EX (process_cycle p)) = IF_ID_pc (IF_ID p)
      /\ latch_ok (process_cycle p))
  /\ (fetched = true ->
      IF_ID (process_cycle p) = mkIF_ID (rd (instr_mem p) (PC p)) (PC p) true).
Proof.
  intros Hbr fetched.
  set (e := execute (snapshot p)). set (d := decode e).
  assert (process_cycle p = (if PC d <? 1024 then fetch d else d)) as Hpc
    by reflexivity.
  assert (EX_valid (process_cycle p) = ID_EX_valid (ID_EX p)) as HEX.
  { rewrite Hpc.
    assert (EX_valid d = ID_EX_valid (ID_EX p)) as <-.
    { subst d e. destruct (decode_shadow (execute (snapshot p))) as (_ & _ & ->).
      by destruct (execute_shadow (snapshot p)) as (_ & _ & ->). }
    destruct (PC d <? 1024); [| done]. apply fetch_shadow. }
  destruct (execute_not_taken (snapshot p) Hbr) as [HePC HeIF]. fold e in HePC, HeIF.
  change (PC (snapshot p)) with (PC p) in HePC.
  change (IF_ID (snapshot p)) with (IF_ID p) in HeIF.
  pose proof (execute_latch_invalid (snapshot p)) as HeID. fold e in HeID.
  pose proof (execute_instr_mem (snapshot p)) as HeIM. fold e in HeIM.
  change (instr_mem (snapshot p)) with (instr_mem p) in HeIM.
  destruct (decode_frame e) as (_ & _ & HdPC & _ & HdIM). fold d in HdPC, HdIM.
  rewrite HePC in HdPC. rewrite HeIM in HdIM.
  assert (IF_ID_valid (IF_ID d) = false
          /\ ID_EX_valid (ID_EX d) = IF_ID_valid (IF_ID p)
          /\ (IF_ID_valid (IF_ID p) = true ->
              ID_EX_instr (ID_EX d) = IF_ID_instr (IF_ID p)
              /\ ID_EX_pc (ID_EX d) = IF_ID_pc (IF_ID p) /\ latch_ok d))
    as (HdIF & HdID & Hd).
  { destruct (IF_ID_valid (IF_ID p)) eqn:Hv.
    - assert (IF_ID_valid (IF_ID e) = true) as Hve by (by rewrite HeIF).
      destruct (decode_valid e Hve) as (H1 & H2 & H3 & H4). fold d in H1, H2, H3, H4.
      rewrite HeIF in H3, H4. split_and!; try done. intros _.
      split_and!; try done. subst d. by apply decode_latch_ok.
    - assert (IF_ID_valid (IF_ID e) = false) as Hve by (by rewrite HeIF).
      subst d. rewrite (decode_invalid e Hve). split_and!; done. }
  split; [done |]. rewrite Hpc, HdPC. subst fetched.
  assert (forall x, ID_EX x = ID_EX d -> Register x = Register d ->
            IF_ID_valid (IF_ID p) = true ->
            ID_EX_instr (ID_EX x) = IF_ID_instr (IF_ID p)
            /\ ID_EX_pc (ID_EX x) = IF_ID_pc (IF_ID p) /\ latch_ok x) as Hkeep.
  { intros x Hx HR Hv. destruct (Hd Hv) as (H1 & H2 & H3).
    unfold latch_ok in *. rewrite Hx, HR. done. }
  destruct (PC p <? 1024) eqn:Hlt; cbn [andb].
  - unfold fetch. rewrite HdPC, Hlt, HdIM.
    destruct (rd (instr_mem p) (PC p) =? 0) eqn:Hz; cbn [negb].
    + refine (conj _ (conj _ (conj _ (conj (Hkeep _ eq_refl eq_refl) _)))); done.
    + cbn [PC set_IF_ID]. rewrite HdPC.
      refine (conj _ (conj _ (conj _ (conj (Hkeep _ eq_refl eq_refl) _)))); done.
  - refine (conj _ (conj _ (conj _ (conj Hd _)))); done.
Qed.

(** X6: in a cycle in which execute takes no branch the pipeline moves on
    by one stage.  The shadow record reports what was in the decode-execute
    latch; the instruction of the fetch-decode latch, if any, is in the
    decode-execute latch afterwards with its program counter, and its two
    operand values are read from the register file as execute has just
    left it, so an instruction directly behind a register write already
    sees the written value; the fetch-decode latch is valid afterwards
    exactly when fetch latched a word. *)
Theorem pipeline_hand_off (p : Processor) :
  branch_taken p = false ->
  IF_ID_valid (IF_ID p) = true ->
  let q := process_cycle p in
  EX_valid q = ID_EX_valid (ID_EX p)
  /\ ID_EX_valid (ID_EX q) = true
  /\ ID_EX_instr (ID_EX q) = IF_ID_instr (IF_ID p)
  /\ ID_EX_pc (ID_EX q) = IF_ID_pc (IF_ID p)
  /\ ID_EX_valueRS (ID_EX q) = rd (Register (execute p)) (ID_EX_rs (ID_EX q))
  /\ ID_EX_valueRT (ID_EX q) = rd (Register (execute p)) (ID_EX_rt (ID_EX q))
  /\ IF_ID_valid (IF_ID q)
     = (PC p <? 1024) && negb (rd (instr_mem p) (PC p) =? 0).
Proof.
  intros Hbr Hv q.
  destruct (process_cycle_not_taken p Hbr) as (HEX & HID & HIF & _ & Hd & _).
  destruct (Hd Hv) as (Hi & Hp & (_ & _ & _ & _ & Hs & Ht)).
  fold q in HEX, HID, HIF, Hi, Hp, Hs, Ht.
  assert (Register q = Register (execute p)) as HR by apply process_cycle_Register.
  rewrite HR in Hs, Ht. rewrite Hv in HID. split_and!; done.
Qed.

Lemma pipeline_hand_off_witness :
  rd (Register movi_then_add) 1 = 0
  /\ ID_EX_opcode (ID_EX (process_cycle movi_then_add)) = 0
  /\ ID_EX_rt (ID_EX (process_cycle movi_then_add)) = 1
  /\ ID_EX_valueRT (ID_EX (process_cycle movi_then_add)) = 5.
Proof.
  assert (branch_taken movi_then_add = false) as Hbr by by_evaluation.
  assert (IF_ID_valid (IF_ID movi_then_add) = true) as Hv by by_evaluation.
  destruct (pipeline_hand_off movi_then_add Hbr Hv) as (_ & _ & _ & _ & _ & Ht & _).
  split_and!; [by_evaluation | by_evaluation | by_evaluation |].
  etransitivity; [exact Ht | by_evaluation].
Defined.

(** ** Programs without branches come to an end *)

Lemma rd_Forall (P : Z -> Prop) a i : Forall P a -> rd a i <> 0 -> P (rd a i).
Proof.
  intros Ha Hnz. unfold rd in *. destruct (a !! Z.to_nat i) as [x |] eqn:E.
  - eapply Forall_lookup_1; eauto.
  - done.
Qed.

Lemma no_branch_not_taken p : no_branch_in_flight p -> branch_taken p = false.
Proof.
  intros (_ & _ & HID & _). unfold branch_taken.
  destruct (ID_EX_valid (ID_EX p)); [| done].
  destruct (HID eq_refl) as [H4 H7].
  apply Z.eqb_neq in H4, H7. by rewrite H4, H7.
Qed.

Lemma no_branch_step p :
  no_branch_in_flight p -> no_branch_in_flight (process_cycle p).
Proof.
  intros Hp. pose proof (no_branch_not_taken p Hp) as Hbr.
  destruct Hp as (HM & HIF & HID & HPC).
  destruct (process_cycle_not_taken p Hbr) as (_ & HvID & HvIF & HPC' & Hd & Hf).
  split_and!.
  - by rewrite process_cycle_instr_mem.
  - intros Hv. rewrite HvIF in Hv. rewrite (Hf Hv). cbn [IF_ID_instr].
    apply andb_true_iff in Hv as [_ Hnz]. apply negb_true_iff, Z.eqb_neq in Hnz.
    by apply (rd_Forall (fun w => not_a_branch w = true)).
  - intros Hv. rewrite HvID in Hv. destruct (Hd Hv) as (Hi & _ & (Ho & _)).
    rewrite Hi in Ho. specialize (HIF Hv). unfold not_a_branch, opcode_field in HIF.
    rewrite <- Ho in HIF. apply andb_true_iff in HIF as [H4 H7].
    apply negb_true_iff, Z.eqb_neq in H4, H7. done.
  - rewrite HPC'. destruct (PC p <? 1024); [| done].
    destruct (_ =? 0); [lia | apply to_uint16_word16].
Qed.

Lemma no_branch_PC p :
  no_branch_in_flight p ->
  (PC p < 1024 -> PC p + 1 <= PC (process_cycle p))
  /\ (1024 <= PC p -> PC (process_cycle p) = PC p).
Proof.
  intros Hp. pose proof (no_branch_not_taken p Hp) as Hbr.
  destruct Hp as (_ & _ & _ & HPC).
  destruct (process_cycle_not_taken p Hbr) as (_ & _ & _ & -> & _).
  split; intros H.
  - assert ((PC p <? 1024) = true) as -> by (apply Z.ltb_lt; lia).
    destruct (_ =? 0); [lia |]. rewrite to_uint16_id by (unfold word16; lia). lia.
  - assert ((PC p <? 1024) = false) as -> by (apply Z.ltb_ge; lia). done.
Qed.

Lemma no_branch_run p n :
  no_branch_in_flight p ->
  no_branch_in_flight (run n p)
  /\ (1024 <= PC (run n p) \/ PC p + Z.of_nat n <= PC (run n p)).
Proof.
  intros Hp. induction n as [| n [IHn IHPC]].
  - split; [done |]. right. simpl. lia.
  - change (run (S n) p) with (process_cycle (run n p)).
    split; [by apply no_branch_step |].
    destruct (no_branch_PC (run n p) IHn) as [Hlt Hge].
    destruct (Z.lt_ge_cases (PC (run n p)) 1024) as [H | H].
    + specialize (Hlt H). destruct IHPC; lia.
    + left. rewrite (Hge H). lia.
Qed.

Lemma no_branch_drains p :
  no_branch_in_flight p -> 1024 <= PC p -> drained (run 3 p) = true.
Proof.
  intros Hp HPC.
  assert (forall q, no_branch_in_flight q -> 1024 <= PC q ->
            let q' := process_cycle q in
            no_branch_in_flight q' /\ 1024 <= PC q'
            /\ EX_valid q' = ID_EX_valid (ID_EX q)
            /\ ID_EX_valid (ID_EX q') = IF_ID_valid (IF_ID q)
            /\ IF_ID_valid (IF_ID q') = false) as Hstep.
  { intros q Hq HPCq q'. subst q'.
    destruct (process_cycle_not_taken q (no_branch_not_taken q Hq))
      as (H1 & H2 & H3 & _).
    destruct (no_branch_PC q Hq) as [_ Hge].
    assert ((PC q <? 1024) = false) as Hlt by (apply Z.ltb_ge; lia).
    rewrite Hlt in H3. rewrite (Hge HPCq).
    split_and!; try done. by apply no_branch_step. }
  change (run 3 p) with (process_cycle (process_cycle (process_cycle p))).
  destruct (Hstep p Hp HPC) as (Hp1 & HPC1 & _ & _ & HIF1).
  destruct (Hstep _ Hp1 HPC1) as (Hp2 & HPC2 & _ & HID2 & HIF2).
  destruct (Hstep _ Hp2 HPC2) as (_ & HPC3 & HEX3 & HID3 & HIF3).
  unfold drained. rewrite HEX3, HID3, HIF3, HID2, HIF2, HIF1. cbn [negb andb].
  by apply Z.leb_le.
Qed.

Lemma drained_run p n : drained p = true -> drained (run n p) = true.
Proof.
  intros Hp. induction n as [| n IH]; [done |].
  change (run (S n) p) with (process_cycle (run n p)).
  by apply drained_stays_drained.
Qed.

Lemma run_add a b p : run (a + b) p = run a (run b p).
Proof. apply Nat.iter_add. Qed.

Lemma no_branch_terminates p n :
  no_branch_in_flight p -> (1027 <= n)%nat -> drained (run n p) = true.
Proof.
  intros Hp Hn. replace n with ((n - 1027) + (3 + 1024))%nat by lia.
  rewrite (run_add (n - 1027) (3 + 1024)), (run_add 3 1024).
  apply drained_run.
  destruct (no_branch_run p 1024 Hp) as [Hq HPC].
  apply no_branch_drains; [done |]. destruct Hp as (_ & _ & _ & H0). lia.
Qed.

Lemma branch_free_word opcode r1 operand :
  (0 <=? opcode) && (opcode <? 16) && negb (opcode =? 4) && negb (opcode =? 7) = true ->
  not_a_branch (encode opcode r1 operand) = true.
Proof.
  intros H. apply andb_true_iff in H as [H H7]. apply andb_true_iff in H as [H H4].
  apply andb_true_iff in H as [H0 H16]. apply Z.leb_le in H0. apply Z.ltb_lt in H16.
  unfold not_a_branch, opcode_field.
  destruct (encode_fields opcode r1 operand ltac:(lia)) as (-> & _). by rewrite H4, H7.
Qed.

Lemma branch_free_store prog : forall addr p,
  branch_free prog = true ->
  Forall (fun w => not_a_branch w = true) (instr_mem p) ->
  Forall (fun w => not_a_branch w = true) (instr_mem (store_program prog addr p)).
Proof.
  induction prog as [| [[o r] v] rest IH]; intros addr p Hbf Hp; simpl; [done |].
  simpl in Hbf. apply andb_true_iff in Hbf as [Hw Hrest].
  destruct (addr <? 1024); [| done]. apply IH; [done |].
  cbn [instr_mem set_instr_mem]. unfold wr. apply Forall_insert; [done |].
  by apply branch_free_word.
Qed.

Lemma branch_free_boot prog :
  branch_free prog = true -> no_branch_in_flight (boot prog).
Proof.
  intros Hbf. unfold no_branch_in_flight, boot, mem_load_program.
  destruct (store_program_frame prog 0 (mem_init proc_init))
    as (_ & _ & -> & _ & -> & -> & _).
  split_and!; try done.
  apply branch_free_store; [done |]. by apply Forall_replicate.
Qed.

(** ** The loop of [main] *)

Lemma isrunning_not_drained p : isrunning p = negb (drained p).
Proof.
  unfold isrunning, drained. rewrite (Z.ltb_antisym 1024 (PC p)).
  destruct (IF_ID_valid _), (ID_EX_valid _), (EX_valid p), (1024 <=? PC p); done.
Qed.

Lemma run_S_first n p : run (S n) p = run n (process_cycle p).
Proof. apply Nat.iter_succ_r. Qed.

(** With enough fuel the loop stops at the first cycle after which the
    termination test holds, and has counted the cycles before it. *)
Lemma main_loop_stops fuel : forall cyclescounter p n,
  (n < fuel)%nat ->
  drained (run (S n) p) = true ->
  exists m, (m <= n)%nat
    /\ main_loop fuel cyclescounter p
       = Some (run (S m) p, cyclescounter + Z.of_nat m)
    /\ drained (run (S m) p) = true
    /\ (forall k, (k < m)%nat -> drained (run (S k) p) = false).
Proof.
  induction fuel as [| fuel IH]; intros c p n Hn Hd; [lia |].
  cbn [main_loop]. destruct (drained (process_cycle p)) eqn:Hd1.
  - exists 0%nat. split_and!; [lia | by rewrite Z.add_0_r | done | intros; lia].
  - rewrite isrunning_not_drained, Hd1. cbn [negb].
    destruct n as [| n]; [simpl in Hd; congruence |].
    rewrite run_S_first in Hd.
    destruct (IH (c + 1) (process_cycle p) n ltac:(lia) Hd)
      as (m & Hm & Hloop & Hdm & Hbefore).
    exists (S m). split_and!.
    + lia.
    + rewrite Hloop, (run_S_first (S m)). do 2 f_equal. lia.
    + by rewrite (run_S_first (S m)).
    + intros [| k] Hk; [done |]. rewrite (run_S_first (S k)). apply Hbefore. lia.
Qed.

(** X7: a program without BEQZ and BR always comes to an end.  The
    termination test of [main] holds after 1027 cycles at the latest (1024
    fetches and three more cycles to empty the pipeline) and from then on;
    with that much fuel the loop of [main] returns, at the first cycle
    after which the test holds, having counted the cycles before it. *)
Theorem branch_free_program_terminates (prog : list (Z * Z * Z)) (fuel : nat) :
  branch_free prog = true ->
  (1027 <= fuel)%nat ->
  drained (run fuel (boot prog)) = true
  /\ exists m, (m < 1027)%nat
       /\ main_loop fuel 0 (boot prog) = Some (run (S m) (boot prog), Z.of_nat m)
       /\ drained (run (S m) (boot prog)) = true
       /\ (forall k, (k < m)%nat -> drained (run (S k) (boot prog)) = false).
Proof.
  intros Hbf Hfuel. pose proof (branch_free_boot prog Hbf) as Hnb.
  split; [by apply no_branch_terminates |].
  destruct (main_loop_stops fuel 0 (boot prog) 1026 ltac:(lia)
              (no_branch_terminates _ 1027 Hnb ltac:(lia)))
    as (m & Hm & Hloop & Hd & Hbefore).
  exists m. rewrite Z.add_0_l in Hloop. split_and!; [lia | done | done | done].
Qed.

Lemma branch_free_program_terminates_witness :
  branch_free movi_add_program = true
  /\ drained (run 1027 (boot movi_add_program)) = true
  /\ snd <$> main_loop 1027 0 (boot movi_add_program) = Some 4
  /\ exists m, (m < 1027)%nat
       /\ main_loop 1027 0 (boot movi_add_program)
          = Some (run (S m) (boot movi_add_program), Z.of_nat m).
Proof.
  assert (branch_free movi_add_program = true) as Hbf by reflexivity.
  destruct (branch_free_program_terminates movi_add_program 1027 Hbf (le_n 1027))
    as (Hd & m & Hm & Hloop & _).
  split_and!; [exact Hbf | exact Hd | by_evaluation |].
  exists m. split; [exact Hm | exact Hloop].
Defined.

(** X8: once the termination test of [main] holds it keeps holding, and
    further cycles change nothing a report would show: registers, status
    register, program counter, both stores and the validity of the latches
    and of the shadow record stay as they are. *)
Theorem drained_state_is_final (p : Processor) (n : nat) :
  drained p = true ->
  let q := run n p in
  drained q = true
  /\ Register q = Register p /\ SREG q = SREG p /\ PC q = PC p
  /\ data_mem q = data_mem p /\ instr_mem q = instr_mem p
  /\ IF_ID q = IF_ID p /\ ID_EX q = ID_EX p /\ EX_valid q = EX_valid p.
Proof.
  intros Hp q. subst q. induction n as [| n IH]; [done |].
  change (run (S n) p) with (process_cycle (run n p)).
  destruct IH as (Hd & HR & HS & HPC & HD & HI & HIF & HID & HEX).
  destruct (drained_stays_drained (run n p) Hd) as [Heq Hd'].
  split; [done |]. rewrite Heq. cbn [snapshot set_EX Register SREG PC data_mem
    instr_mem IF_ID ID_EX EX_valid].
  split_and!; try done.
  unfold drained in Hd, Hp.
  apply andb_true_iff in Hd as [Hd _]. apply andb_true_iff in Hd as [_ Hd].
  apply andb_true_iff in Hp as [Hp _]. apply andb_true_iff in Hp as [Hp _].
  apply andb_true_iff in Hp as [Hp _].
  apply negb_true_iff in Hd, Hp. by rewrite Hd, Hp.
Qed.

Lemma drained_state_is_final_witness :
  drained (run 3 at_instruction) = false
  /\ drained (run 4 at_instruction) = true
  /\ Register (run 5 (run 4 at_instruction)) = Register (run 4 at_instruction)
  /\ PC (run 5 (run 4 at_instruction)) = PC (run 4 at_instruction).
Proof.
  assert (drained (run 4 at_instruction) = true) as Hd by by_evaluation.
  destruct (drained_state_is_final (run 4 at_instruction) 5 Hd)
    as (_ & HR & _ & HPC & _).
  split_and!; [by_evaluation | exact Hd | exact HR | exact HPC].
Defined.

(** ** Flags of ADD and SUB, checked on every pair of bytes *)

Lemma byte_in_bytes x : byte x -> In x bytes.
Proof.
  intros Hx. apply list_elem_of_In. unfold bytes. apply elem_of_seqZ.
  unfold byte in Hx. lia.
Qed.

Lemma for_all_bytes (P : Z -> bool) :
  forallb P bytes = true -> forall a, byte a -> P a = true.
Proof.
  intros H a Ha. rewrite forallb_forall in H. apply H. by apply byte_in_bytes.
Qed.

Lemma for_all_byte_pairs (P : Z -> Z -> bool) :
  forallb (fun a => forallb (P a) bytes) bytes = true ->
  forall a b, byte a -> byte b -> P a b = true.
Proof.
  intros H a b Ha Hb.
  apply (for_all_bytes (P a)); [| done].
  by apply (for_all_bytes (fun a => forallb (P a) bytes)).
Qed.

Lemma negative_bit_of_byte r : byte r -> result_negative r = (128 <=? r).
Proof.
  intros Hr.
  pose proof (for_all_bytes (fun r => Bool.eqb (result_negative r) (128 <=? r))
                ltac:(vm_compute; reflexivity) r Hr) as H.
  by apply Bool.eqb_prop in H.
Qed.

Lemma add_flags_of_bytes a b :
  byte a -> byte b ->
  carry_out a b 0 = (256 <=? a + b)
  /\ overflow_bit (to_uint8 (a + b)) a b = signed_sum_overflows a b.
Proof.
  intros Ha Hb.
  pose proof (for_all_byte_pairs
                (fun a b => Bool.eqb (carry_out a b 0) (256 <=? a + b)
                            && Bool.eqb (overflow_bit (to_uint8 (a + b)) a b)
                                 (signed_sum_overflows a b))
                ltac:(vm_compute; reflexivity) a b Ha Hb) as H.
  apply andb_true_iff in H as [H1 H2]. by apply Bool.eqb_prop in H1, H2.
Qed.

Lemma sub_flags_of_bytes a b :
  byte a -> byte b ->
  carry_out a b 1 = (to_int8 a <? to_int8 b)
  /\ result_zero (to_uint8 (a - b)) = (a =? b)
  /\ (overflow_bit (to_uint8 (a - b)) a b = true ->
      -128 <= to_int8 a - to_int8 b <= 127)
  /\ (~ -128 <= to_int8 a - to_int8 b <= 127 ->
      overflow_bit (to_uint8 (a - b)) a b = false).
Proof.
  intros Ha Hb.
  pose proof (for_all_byte_pairs
                (fun a b =>
                   Bool.eqb (carry_out a b 1) (to_int8 a <? to_int8 b)
                   && Bool.eqb (result_zero (to_uint8 (a - b))) (a =? b)
                   && implb (overflow_bit (to_uint8 (a - b)) a b)
                        ((-128 <=? to_int8 a - to_int8 b)
                         && (to_int8 a - to_int8 b <=? 127)))
                ltac:(vm_compute; reflexivity) a b Ha Hb) as H.
  apply andb_true_iff in H as [H H3]. apply andb_true_iff in H as [H1 H2].
  apply Bool.eqb_prop in H1, H2.
  assert (overflow_bit (to_uint8 (a - b)) a b = true ->
          -128 <= to_int8 a - to_int8 b <= 127) as Hfit.
  { intros Hv. rewrite Hv in H3. cbn [implb] in H3.
    apply andb_true_iff in H3 as [Hlo Hhi].
    apply Z.leb_le in Hlo, Hhi. lia. }
  split_and!; [done | done | done |].
  intros Hno. destruct (overflow_bit _ a b); [| done]. by destruct Hno; apply Hfit.
Qed.

Lemma execute_ADD_flag p f :
  ID_EX_valid (ID_EX p) = true ->
  ID_EX_opcode (ID_EX p) = 0 ->
  let v1 := ID_EX_valueRS (ID_EX p) in
  let v2 := ID_EX_valueRT (ID_EX p) in
  flag f (execute p) = flag f (update_flags p (to_uint8 (v1 + v2)) v1 v2 0).
Proof.
  intros Hv Hop v1 v2. rewrite execute_flag by (done || by rewrite Hop).
  unfold switch_result, execute_switch, operand2. by rewrite Hop.
Qed.

Lemma execute_SUB_flag p f :
  ID_EX_valid (ID_EX p) = true ->
  ID_EX_opcode (ID_EX p) = 1 ->
  let v1 := ID_EX_valueRS (ID_EX p) in
  let v2 := ID_EX_valueRT (ID_EX p) in
  flag f (execute p) = flag f (update_flags p (to_uint8 (v1 - v2)) v1 v2 1).
Proof.
  intros Hv Hop v1 v2. rewrite execute_flag by (done || by rewrite Hop).
  unfold switch_result, execute_switch, operand2. by rewrite Hop.
Qed.

(** X9: after an ADD of two bytes, Carry is set exactly when the unsigned
    sum does not fit eight bits, and Overflow exactly when the sum of the
    operands read as signed bytes lies outside -128..127. *)
Theorem ADD_carry_and_overflow (p : Processor) :
  ID_EX_valid (ID_EX p) = true ->
  ID_EX_opcode (ID_EX p) = 0 ->
  byte (ID_EX_valueRS (ID_EX p)) ->
  byte (ID_EX_valueRT (ID_EX p)) ->
  let v1 := ID_EX_valueRS (ID_EX p) in
  let v2 := ID_EX_valueRT (ID_EX p) in
  flag FLAG_C (execute p) = (256 <=? v1 + v2)
  /\ flag FLAG_V (execute p) = signed_sum_overflows v1 v2.
Proof.
  intros Hv Hop H1 H2 v1 v2. rewrite !execute_ADD_flag by done. fold v1 v2.
  pose proof (update_flags_flags p (to_uint8 (v1 + v2)) v1 v2 0)
    as (_ & _ & -> & -> & _).
  destruct (add_flags_of_bytes v1 v2 H1 H2) as [-> ->]. done.
Qed.

Lemma ADD_carry_and_overflow_witness :
  (flag FLAG_C (execute add_200_100) = true
   /\ flag FLAG_V (execute add_200_100) = false)
  /\ (flag FLAG_C (execute add_64_64) = false
      /\ flag FLAG_V (execute add_64_64) = true).
Proof.
  assert (ID_EX_valid (ID_EX add_200_100) = true) as Hv1 by by_evaluation.
  assert (ID_EX_opcode (ID_EX add_200_100) = 0) as Ho1 by by_evaluation.
  assert (ID_EX_valid (ID_EX add_64_64) = true) as Hv2 by by_evaluation.
  assert (ID_EX_opcode (ID_EX add_64_64) = 0) as Ho2 by by_evaluation.
  destruct (ADD_carry_and_overflow add_200_100 Hv1 Ho1
              ltac:(ground_byte) ltac:(ground_byte)) as [HC1 HV1].
  destruct (ADD_carry_and_overflow add_64_64 Hv2 Ho2
              ltac:(ground_byte) ltac:(ground_byte)) as [HC2 HV2].
  split; split;
    [ etransitivity; [exact HC1 | by_evaluation]
    | etransitivity; [exact HV1 | by_evaluation]
    | etransitivity; [exact HC2 | by_evaluation]
    | etransitivity; [exact HV2 | by_evaluation] ].
Defined.

(** X10: after a SUB of two bytes, Zero is set exactly when the operands
    are equal, and Carry exactly when the first operand is below the second
    with both read as signed bytes. *)
Theorem SUB_zero_and_carry (p : Processor) :
  ID_EX_valid (ID_EX p) = true ->
  ID_EX_opcode (ID_EX p) = 1 ->
  byte (ID_EX_valueRS (ID_EX p)) ->
  byte (ID_EX_valueRT (ID_EX p)) ->
  let v1 := ID_EX_valueRS (ID_EX p) in
  let v2 := ID_EX_valueRT (ID_EX p) in
  flag FLAG_Z (execute p) = (v1 =? v2)
  /\ flag FLAG_C (execute p) = (to_int8 v1 <? to_int8 v2).
Proof.
  intros Hv Hop H1 H2 v1 v2. rewrite !execute_SUB_flag by done. fold v1 v2.
  pose proof (update_flags_flags p (to_uint8 (v1 - v2)) v1 v2 1)
    as (-> & _ & -> & _ & _).
  destruct (sub_flags_of_bytes v1 v2 H1 H2) as (-> & -> & _). done.
Qed.

Lemma SUB_zero_and_carry_witness :
  ID_EX_valueRS (ID_EX sub_3_5) = 3 /\ ID_EX_valueRT (ID_EX sub_3_5) = 5
  /\ flag FLAG_Z (execute sub_3_5) = false
  /\ flag FLAG_C (execute sub_3_5) = true.
Proof.
  assert (ID_EX_valid (ID_EX sub_3_5) = true) as Hv by by_evaluation.
  assert (ID_EX_opcode (ID_EX sub_3_5) = 1) as Ho by by_evaluation.
  destruct (SUB_zero_and_carry sub_3_5 Hv Ho ltac:(ground_byte) ltac:(ground_byte))
    as [HZ HC].
  split_and!; [by_evaluation | by_evaluation | |].
  - etransitivity; [exact HZ | by_evaluation].
  - etransitivity; [exact HC | by_evaluation].
Defined.

(** X11: after a SUB of two bytes the Overflow flag never marks a
    difference that leaves the signed range: whenever it is set the
    difference of the operands read as signed bytes lies within -128..127,
    and whenever that difference lies outside the flag is clear. *)
Theorem SUB_overflow_flag_misses_overflow (p : Processor) :
  ID_EX_valid (ID_EX p) = true ->
  ID_EX_opcode (ID_EX p) = 1 ->
  byte (ID_EX_valueRS (ID_EX p)) ->
  byte (ID_EX_valueRT (ID_EX p)) ->
  let d := to_int8 (ID_EX_valueRS (ID_EX p)) - to_int8 (ID_EX_valueRT (ID_EX p)) in
  (flag FLAG_V (execute p) = true -> -128 <= d <= 127)
  /\ (~ -128 <= d <= 127 -> flag FLAG_V (execute p) = false).
Proof.
  intros Hv Hop H1 H2 d. rewrite !execute_SUB_flag by done.
  pose proof (update_flags_flags p
                (to_uint8 (ID_EX_valueRS (ID_EX p) - ID_EX_valueRT (ID_EX p)))
                (ID_EX_valueRS (ID_EX p)) (ID_EX_valueRT (ID_EX p)) 1)
    as (_ & _ & _ & -> & _).
  destruct (sub_flags_of_bytes _ _ H1 H2) as (_ & _ & Hfit & Hmiss). done.
Qed.

Lemma SUB_overflow_flag_misses_overflow_witness :
  (flag FLAG_V (execute sub_3_5) = true
   /\ -128 <= to_int8 (ID_EX_valueRS (ID_EX sub_3_5))
              - to_int8 (ID_EX_valueRT (ID_EX sub_3_5)) <= 127)
  /\ (to_int8 (ID_EX_valueRS (ID_EX sub_128_1))
      - to_int8 (ID_EX_valueRT (ID_EX sub_128_1)) = -129
      /\ flag FLAG_V (execute sub_128_1) = false).
Proof.
  assert (ID_EX_valid (ID_EX sub_3_5) = true) as Hv1 by by_evaluation.
  assert (ID_EX_opcode (ID_EX sub_3_5) = 1) as Ho1 by by_evaluation.
  assert (flag FLAG_V (execute sub_3_5) = true) as HV1 by by_evaluation.
  assert (ID_EX_valid (ID_EX sub_128_1) = true) as Hv2 by by_evaluation.
  assert (ID_EX_opcode (ID_EX sub_128_1) = 1) as Ho2 by by_evaluation.
  assert (to_int8 (ID_EX_valueRS (ID_EX sub_128_1))
          - to_int8 (ID_EX_valueRT (ID_EX sub_128_1)) = -129) as Hd by by_evaluation.
  destruct (SUB_overflow_flag_misses_overflow sub_3_5 Hv1 Ho1
              ltac:(ground_byte) ltac:(ground_byte)) as [Hfit _].
  destruct (SUB_overflow_flag_misses_overflow sub_128_1 Hv2 Ho2
              ltac:(ground_byte) ltac:(ground_byte)) as [_ Hmiss].
  refine (conj (conj HV1 (Hfit HV1)) (conj Hd (Hmiss _))).
  rewrite Hd. lia.
Defined.

(** ** Zero and Negative after any write-back *)

Lemma SREG_five_bits p result val1 val2 op :
  0 <= SREG (update_flags p result val1 val2 op) < 32.
Proof.
  rewrite update_flags_SREG. unfold bit_if.
  destruct (result_zero result), (result_negative result), (add_or_sub op),
    (carry_out val1 val2 op), (overflow_bit result val1 val2); vm_compute;
    split; congruence.
Qed.

(** X12: when execute processes any of the nine opcodes that write back
    (ADD, SUB, MUL, MOVI, ANDI, EOR, SAL, SAR, LDR) into a register other
    than register 0, the value written is a byte, Zero is set exactly when
    that value is 0 and Negative exactly when it is 128 or more, and the
    status register holds nothing outside its five flag bits. *)
Theorem zero_and_negative_follow_written_value (p : Processor) :
  wf p ->
  ID_EX_valid (ID_EX p) = true ->
  writes_back (ID_EX_opcode (ID_EX p)) = true ->
  ID_EX_rs (ID_EX p) <> 0 ->
  let q := execute p in
  let written := rd (Register q) (ID_EX_rs (ID_EX p)) in
  byte written
  /\ flag FLAG_Z q = (written =? 0)
  /\ flag FLAG_N q = (128 <=? written)
  /\ 0 <= SREG q < 32.
Proof.
  intros [Ha HL] Hv Hwb Hrs q written.
  destruct (latch_ok_ranges p (HL Hv)) as (_ & Hr & _).
  assert (written = switch_result p) as ->.
  { subst written q. apply execute_result_register; try done; [lia |].
    destruct Ha as (-> & _). lia. }
  pose proof (switch_result_byte p Ha Hwb) as Hb.
  subst q. rewrite !execute_flag by done.
  pose proof (update_flags_flags p (switch_result p) (ID_EX_valueRS (ID_EX p))
                (operand2 p) (ID_EX_opcode (ID_EX p))) as (-> & -> & _).
  split_and!; try done.
  - by apply negative_bit_of_byte.
  - rewrite execute_writes_back by done.
    cbn [SREG set_ID_EX_valid set_ID_EX]. apply SREG_five_bits.
  - rewrite execute_writes_back by done.
    cbn [SREG set_ID_EX_valid set_ID_EX]. apply SREG_five_bits.
Qed.

Lemma zero_and_negative_follow_written_value_witness :
  rd (Register (execute mul_16_8)) (ID_EX_rs (ID_EX mul_16_8)) = 128
  /\ flag FLAG_Z (execute mul_16_8) = false
  /\ flag FLAG_N (execute mul_16_8) = true.
Proof.
  assert (wf mul_16_8) as Hwf by compute_done.
  assert (ID_EX_valid (ID_EX mul_16_8) = true) as Hv by by_evaluation.
  assert (writes_back (ID_EX_opcode (ID_EX mul_16_8)) = true) as Hwb by by_evaluation.
  assert (ID_EX_rs (ID_EX mul_16_8) <> 0) as Hrs by by_evaluation.
  assert (rd (Register (execute mul_16_8)) (ID_EX_rs (ID_EX mul_16_8)) = 128) as Hw
    by by_evaluation.
  destruct (zero_and_negative_follow_written_value mul_16_8 Hwf Hv Hwb Hrs)
    as (_ & HZ & HN & _).
  rewrite Hw in HZ, HN. exact (conj Hw (conj HZ HN)).
Defined.

(** ** A loaded MOVI, from the fetch-decode latch to the register *)

(** X13: a MOVI line of the loader, once decoded and executed, leaves the
    value modulo 64 in the register numbered modulo 64 (other than register
    0): a number from 0 to 63, also for a negative value in the program
    text.  Zero is set exactly when that number is 0 and Negative is never
    set. *)
Theorem loaded_MOVI_writes_low_six_bits (p : Processor) (r v pc : Z) :
  length (Register p) = 64%nat ->
  r mod 64 <> 0 ->
  let q := execute (decode (set_IF_ID (mkIF_ID (encode 3 r v) pc true) p)) in
  rd (Register q) (r mod 64) = v mod 64
  /\ flag FLAG_Z q = (v mod 64 =? 0)
  /\ flag FLAG_N q = false.
Proof.
  intros Hlen Hr q.
  set (s := set_IF_ID (mkIF_ID (encode 3 r v) pc true) p) in *.
  set (d := decode s) in *.
  assert (IF_ID_valid (IF_ID s) = true) as Hvs by reflexivity.
  pose proof (decode_latch_ok s Hvs) as (Ho & Hs & _ & Hi & _).
  fold d in Ho, Hs, Hi.
  destruct (decode_valid s Hvs) as (_ & Hv & Hw & _). fold d in Hv, Hw.
  change (IF_ID_instr (IF_ID s)) with (encode 3 r v) in Hw.
  destruct (encode_fields 3 r v ltac:(lia)) as (Ef & Er & El).
  rewrite Hw in Ho, Hs, Hi. rewrite Ef in Ho. rewrite Er in Hs.
  rewrite Ho, El in Hi. change (imm_class 3) with true in Hi. cbn iota in Hi.
  pose proof (Z.mod_pos_bound r 64 ltac:(lia)) as Hrb.
  pose proof (Z.mod_pos_bound v 64 ltac:(lia)) as Hvb.
  assert (writes_back (ID_EX_opcode (ID_EX d)) = true) as Hwb by (by rewrite Ho).
  assert (switch_result d = v mod 64) as Hres.
  { unfold switch_result, execute_switch. rewrite Ho, Hi.
    rewrite to_int8_small by lia. apply to_uint8_id. unfold byte. lia. }
  assert (Register d = Register p) as HR
    by (subst d; by destruct (decode_frame s) as (-> & _)).
  split_and!.
  - subst q. rewrite <- Hs, <- Hres.
    apply execute_result_register; try done; [lia |]. rewrite HR, Hlen, Hs. lia.
  - subst q. rewrite execute_flag by done.
    pose proof (update_flags_flags d (switch_result d) (ID_EX_valueRS (ID_EX d))
                  (operand2 d) (ID_EX_opcode (ID_EX d))) as (-> & _).
    by rewrite Hres.
  - subst q. rewrite execute_flag by done.
    pose proof (update_flags_flags d (switch_result d) (ID_EX_valueRS (ID_EX d))
                  (operand2 d) (ID_EX_opcode (ID_EX d))) as (_ & -> & _).
    rewrite Hres, negative_bit_of_byte by (unfold byte; lia).
    apply Z.leb_gt. lia.
Qed.

Lemma loaded_MOVI_writes_low_six_bits_witness :
  let q := execute (decode (set_IF_ID (mkIF_ID (encode 3 1 (-1)) 0 true) proc_init)) in
  rd (Register q) 1 = 63 /\ flag FLAG_Z q = false /\ flag FLAG_N q = false.
Proof.
  assert (length (Register proc_init) = 64%nat) as Hlen by by_evaluation.
  destruct (loaded_MOVI_writes_low_six_bits proc_init 1 (-1) 0 Hlen ltac:(by_evaluation))
    as (HR & HZ & HN).
  cbv zeta. split_and!; [exact HR | exact HZ | exact HN].
Defined.

(** ** States the simulator reaches *)

Lemma latched_address_small p :
  latch_ok p -> 0 <= latched_address p < 64.
Proof.
  intros H. destruct (latch_ok_ranges p H) as (_ & _ & _ & Hi).
  unfold latched_address. rewrite to_int8_small by lia.
  rewrite to_uint16_id by (unfold word16; lia). done.
Qed.

(** X14: whatever the program, LDR and STR only ever address the cells 0 to
    63 of the data store, so every cell from 64 on still holds 0 after any
    number of cycles. *)
Theorem data_store_beyond_63_is_never_written (prog : list (Z * Z * Z))
    (n : nat) (j : Z) :
  64 <= j ->
  let p := run n (boot prog) in
  (ID_EX_valid (ID_EX p) = true -> 0 <= latched_address p < 64)
  /\ rd (data_mem p) j = 0.
Proof.
  intros Hj p. subst p. split.
  - intros Hv. apply latched_address_small.
    destruct (wf_run n (boot prog) (wf_boot prog)) as [_ HL]. by apply HL.
  - induction n as [| n IH].
    + simpl. unfold boot, mem_load_program.
      destruct (store_program_frame prog 0 (mem_init proc_init))
        as (_ & _ & _ & -> & _). apply rd_replicate_0.
    + change (run (S n) (boot prog)) with (process_cycle (run n (boot prog))).
      rewrite process_cycle_data_mem, execute_data_mem.
      destruct (ID_EX_valid (ID_EX (run n (boot prog)))) eqn:Hv; [| done].
      destruct (_ =? 11); [| done]. destruct (_ <? 2048); [| done].
      cbn [andb].
      destruct (wf_run n (boot prog) (wf_boot prog)) as [_ HL].
      pose proof (latched_address_small _ (HL Hv)).
      rewrite rd_wr_ne by lia. done.
Qed.

Lemma data_store_beyond_63_is_never_written_witness :
  rd (data_mem (run 6 (boot store_minus_one))) 63 = 7
  /\ rd (data_mem (run 6 (boot store_minus_one))) 64 = 0.
Proof.
  destruct (data_store_beyond_63_is_never_written store_minus_one 6 64 ltac:(lia))
    as [_ H].
  split; [by_evaluation | exact H].
Defined.

(** X15: every state reached from start-up, under any program, is
    well-formed: the three arrays keep their sizes, registers, data cells,
    status register and program counter stay within their C types, and a
    valid decode-execute latch holds an opcode below 16, register indices
    below 64 and an immediate from 0 to 63, so that no access of a cycle
    falls outside an array. *)
Theorem reached_states_stay_in_bounds (prog : list (Z * Z * Z)) (n : nat) :
  let p := run n (boot prog) in
  wf p
  /\ (ID_EX_valid (ID_EX p) = true ->
      0 <= ID_EX_opcode (ID_EX p) < 16 /\ 0 <= ID_EX_rs (ID_EX p) < 64
      /\ 0 <= ID_EX_rt (ID_EX p) < 64 /\ 0 <= ID_EX_imm (ID_EX p) < 64)
  /\ (PC p < 1024 -> (Z.to_nat (PC p) < length (instr_mem p))%nat).
Proof.
  intros p. pose proof (wf_run n (boot prog) (wf_boot prog)) as Hwf. fold p in Hwf.
  split_and!; [done | |].
  - intros Hv. destruct Hwf as [_ HL]. by apply latch_ok_ranges, HL.
  - intros HPC. destruct Hwf as [(_ & _ & _ & _ & -> & _ & [H0 _] & _) _]. lia.
Qed.

Lemma reached_states_stay_in_bounds_witness :
  ID_EX_valid (ID_EX (run 2 (boot store_minus_one))) = true
  /\ 0 <= ID_EX_imm (ID_EX (run 2 (boot store_minus_one))) < 64.
Proof.
  assert (ID_EX_valid (ID_EX (run 2 (boot store_minus_one))) = true) as Hv
    by by_evaluation.
  destruct (reached_states_stay_in_bounds store_minus_one 2) as (_ & H & _).
  destruct (H Hv) as (_ & _ & _ & Hi). exact (conj Hv Hi).
Defined.

(** X16: on every state reached from start-up, the operand values of a
    valid decode-execute latch are the values the register file holds when
    execute runs; no instruction ever computes on a register value that an
    earlier instruction has since overwritten. *)
Theorem execute_never_reads_stale_operands (prog : list (Z * Z * Z)) (n : nat) :
  let p := run n (boot prog) in
  ID_EX_valid (ID_EX p) = true ->
  ID_EX_valueRS (ID_EX p) = rd (Register p) (ID_EX_rs (ID_EX p))
  /\ ID_EX_valueRT (ID_EX p) = rd (Register p) (ID_EX_rt (ID_EX p)).
Proof. apply latched_operands_fresh. Qed.

Lemma execute_never_reads_stale_operands_witness :
  let p := run 3 (boot movi_add_program) in
  ID_EX_opcode (ID_EX p) = 0 /\ ID_EX_rt (ID_EX p) = 1
  /\ rd (Register p) 1 = 5 /\ ID_EX_valueRT (ID_EX p) = 5.
Proof.
  assert (ID_EX_valid (ID_EX (run 3 (boot movi_add_program))) = true) as Hv
    by by_evaluation.
  destruct (execute_never_reads_stale_operands movi_add_program 3 Hv) as [_ Ht].
  cbv zeta. split_and!; [by_evaluation | by_evaluation | by_evaluation |].
  etransitivity; [exact Ht | by_evaluation].
Defined.

(** ** Instructions in flight *)

Lemma execute_IF_ID p :
  IF_ID_instr (IF_ID (execute p)) = IF_ID_instr (IF_ID p)
  /\ IF_ID_pc (IF_ID (execute p)) = IF_ID_pc (IF_ID p)
  /\ (IF_ID_valid (IF_ID (execute p)) = true -> IF_ID_valid (IF_ID p) = true).
Proof.
  destruct (ID_EX_valid (ID_EX p)) eqn:Hv; [| by rewrite execute_invalid].
  destruct (opcode_cases (ID_EX_opcode (ID_EX p))) as [H | [H | [H | [H | H]]]].
  - rewrite execute_writes_back by done. by destruct (negb _).
  - destruct (Z.eq_dec (rd (Register p) (ID_EX_rs (ID_EX p))) 0).
    + by rewrite execute_BEQZ_taken.
    + by rewrite execute_BEQZ_not_taken.
  - by rewrite execute_BR.
  - rewrite execute_STR by done. unfold mem_write_data. by destruct (2048 <=? _).
  - by rewrite execute_no_case.
Qed.

Lemma decode_IF_ID_invalid p : IF_ID_valid (IF_ID (decode p)) = false.
Proof.
  destruct (IF_ID_valid (IF_ID p)) eqn:Hv.
  - by destruct (decode_valid p Hv) as (-> & _).
  - by rewrite decode_invalid.
Qed.

Lemma in_flight_step p : wf p -> in_flight_ok p -> in_flight_ok (process_cycle p).
Proof.
  intros Hwf (HIF & HID & _).
  set (e := execute (snapshot p)). set (d := decode e).
  assert (process_cycle p = (if PC d <? 1024 then fetch d else d)) as Hpc
    by reflexivity.
  assert (wf e) as Hwe by (apply wf_execute; destruct Hwf; by split).
  assert (instr_mem d = instr_mem p) as HdIM.
  { subst d. destruct (decode_frame e) as (_ & _ & _ & _ & ->).
    subst e. by rewrite execute_instr_mem. }
  assert (PC d = PC e) as HdPC by (subst d; apply decode_frame).
  assert (EX_instr d = ID_EX_instr (ID_EX p) /\ EX_pc d = ID_EX_pc (ID_EX p)
          /\ EX_valid d = ID_EX_valid (ID_EX p)) as (HdXi & HdXp & HdXv).
  { subst d e. destruct (decode_shadow (execute (snapshot p))) as (-> & -> & ->).
    by destruct (execute_shadow (snapshot p)) as (-> & -> & ->). }
  assert (ID_EX_valid (ID_EX d) = true ->
          fetched_from (instr_mem p) (ID_EX_instr (ID_EX d)) (ID_EX_pc (ID_EX d)))
    as HdID.
  { intros Hv. destruct (IF_ID_valid (IF_ID e)) eqn:Hve.
    - destruct (decode_valid e Hve) as (_ & _ & Hi & Hp). fold d in Hi, Hp.
      destruct (execute_IF_ID (snapshot p)) as (Ei & Ep & Ev). fold e in Ei, Ep, Ev.
      rewrite Hi, Hp, Ei, Ep. apply HIF. by apply Ev.
    - subst d. rewrite (decode_invalid e Hve) in Hv.
      subst e. by rewrite execute_latch_invalid in Hv. }
  pose proof (decode_IF_ID_invalid e) as HdIF. fold d in HdIF.
  rewrite Hpc. unfold in_flight_ok.
  destruct (PC d <? 1024) eqn:Hlt.
  - destruct (fetch_frame d) as (_ & _ & _ & HfIM & HfID).
    destruct (fetch_shadow d) as (Hfi & Hfp & Hfv).
    rewrite HfIM, HfID, Hfi, Hfp, Hfv, HdIM, HdXi, HdXp, HdXv.
    split_and!; [| done | done].
    unfold fetch. rewrite Hlt, HdIM.
    destruct (rd (instr_mem p) (PC d) =? 0) eqn:Hz.
    + cbn [IF_ID set_PC]. by rewrite HdIF.
    + intros _. cbn [IF_ID set_PC set_IF_ID IF_ID_instr IF_ID_pc].
      apply Z.eqb_neq in Hz. apply Z.ltb_lt in Hlt.
      destruct Hwe as [(_ & _ & _ & _ & _ & _ & [H0 _] & _) _].
      rewrite HdPC in *. unfold fetched_from. split_and!; done || lia.
  - rewrite HdIM, HdXi, HdXp, HdXv. split_and!; [by rewrite HdIF | done | done].
Qed.

(** X17: on every state reached from start-up, each instruction in the
    pipeline (in the fetch-decode latch, in the decode-execute latch, or
    reported by the shadow record) is the non-zero word that the
    instruction store holds at the program counter carried with it, an
    address below 1024. *)
Theorem instructions_in_flight_come_from_the_store (prog : list (Z * Z * Z))
    (n : nat) :
  let p := run n (boot prog) in
  (IF_ID_valid (IF_ID p) = true ->
   fetched_from (instr_mem (boot prog)) (IF_ID_instr (IF_ID p)) (IF_ID_pc (IF_ID p)))
  /\ (ID_EX_valid (ID_EX p) = true ->
      fetched_from (instr_mem (boot prog)) (ID_EX_instr (ID_EX p))
        (ID_EX_pc (ID_EX p)))
  /\ (EX_valid p = true ->
      fetched_from (instr_mem (boot prog)) (EX_instr p) (EX_pc p)).
Proof.
  intros p. subst p.
  assert (in_flight_ok (run n (boot prog))) as H.
  { induction n as [| n IH].
    - simpl. unfold in_flight_ok, boot, mem_load_program.
      destruct (store_program_frame prog 0 (mem_init proc_init))
        as (_ & _ & _ & _ & -> & -> & ->). done.
    - change (run (S n) (boot prog)) with (process_cycle (run n (boot prog))).
      apply in_flight_step; [apply wf_run, wf_boot | done]. }
  unfold in_flight_ok in H. rewrite process_cycle_instr_mem_run in H. exact H.
Qed.

Lemma instructions_in_flight_come_from_the_store_witness :
  let p := run 2 (boot movi_add_program) in
  IF_ID_valid (IF_ID p) = true /\ ID_EX_valid (ID_EX p) = true
  /\ fetched_from (instr_mem (boot movi_add_program)) (IF_ID_instr (IF_ID p))
       (IF_ID_pc (IF_ID p))
  /\ fetched_from (instr_mem (boot movi_add_program)) (ID_EX_instr (ID_EX p))
       (ID_EX_pc (ID_EX p)).
Proof.
  assert (IF_ID_valid (IF_ID (run 2 (boot movi_add_program))) = true) as Hif
    by by_evaluation.
  assert (ID_EX_valid (ID_EX (run 2 (boot movi_add_program))) = true) as Hid
    by by_evaluation.
  destruct (instructions_in_flight_come_from_the_store movi_add_program 2)
    as (H1 & H2 & _).
  exact (conj Hif (conj Hid (conj (H1 Hif) (H2 Hid)))).
Defined.
